(** * mcp-hemnet: the extraction-and-query pipeline of [src/index.ts]

    [src/index.ts] holds two versions of the server; the one embedded here
    is the second, which fetches pages through the render service and
    parses them with cheerio (from the interfaces of line 871 on).

    A shallow embedding of the location resolver ([findLocationId]), the
    query builder ([buildSearchUrl]), the page fetcher ([fetchViaRenderer],
    [fetchPage], [fetchJson]) and the field extractors of [searchHemnet] and
    [getListingDetails], followed by the properties the specification states
    about them.

    Conventions.
    - A JavaScript string is its sequence of UTF-16 code units, [list N].
      Literals are written as UTF-8 text and decoded by [Js.lit].
    - A JavaScript [number] is modelled by [Z]: the integral values, for
      which [String(n)] is the decimal numeral.
    - Everything that lives outside the repository (the network, the HTML
      parser behind [cheerio.load], [JSON.parse]) is a field of the record
      [World]; the functions of the repository are written against it and
      the theorems hold for every world.
    - [async] functions run in the monad [M]: a reader of the world and of
      the renderer settings, a writer of the requests sent, and an
      exception monad for [throw]. *)

From Stdlib Require Import ZArith NArith List String Ascii Bool Lia.
From Stdlib Require Import DecimalString.
From stdpp Require Import base option list gmap.

Set Warnings "-register-all".

Local Open Scope N_scope.

(** ** JavaScript strings and values *)

Module Js.

Abbreviation jsstring := (list N).

(** UTF-8 text (a Rocq string literal) to UTF-16 code units. *)
Definition units_of_code_point (cp : N) : jsstring :=
  if cp <? 65536 then [cp]
  else [55296 + N.shiftr (cp - 65536) 10; 56320 + N.land (cp - 65536) 1023].

Definition cont (b : N) : N := N.land b 63.

Fixpoint decode_utf8 (bs : list N) : jsstring :=
  match bs with
  | [] => []
  | b :: r =>
    if b <? 128 then b :: decode_utf8 r
    else if b <? 224 then
      match r with
      | b1 :: r1 => (N.land b 31 * 64 + cont b1) :: decode_utf8 r1
      | [] => [65533]
      end
    else if b <? 240 then
      match r with
      | b1 :: b2 :: r2 =>
        (N.land b 15 * 4096 + cont b1 * 64 + cont b2) :: decode_utf8 r2
      | _ => [65533]
      end
    else
      match r with
      | b1 :: b2 :: b3 :: r3 =>
        units_of_code_point
          (N.land b 7 * 262144 + cont b1 * 4096 + cont b2 * 64 + cont b3)
          ++ decode_utf8 r3
      | _ => [65533]
      end
  end.

Definition lit (s : string) : jsstring :=
  decode_utf8 (List.map N_of_ascii (list_ascii_of_string s)).

(** UTF-16 code units to code points. A surrogate that is not part of a
    pair is reported as [None]. *)
Definition is_high (u : N) : bool := (55296 <=? u) && (u <=? 56319).
Definition is_low (u : N) : bool := (56320 <=? u) && (u <=? 57343).

Fixpoint code_points (s : jsstring) : list (option N) :=
  match s with
  | [] => []
  | u :: r =>
    if is_high u then
      match r with
      | v :: r' =>
        if is_low v
        then Some (65536 + (u - 55296) * 1024 + (v - 56320)) :: code_points r'
        else None :: code_points r
      | [] => [None]
      end
    else if is_low u then None :: code_points r
    else Some u :: code_points r
  end.

Definition utf8_of_code_point (cp : N) : list N :=
  if cp <? 128 then [cp]
  else if cp <? 2048 then [192 + N.shiftr cp 6; 128 + N.land cp 63]
  else if cp <? 65536 then
    [224 + N.shiftr cp 12; 128 + N.land (N.shiftr cp 6) 63; 128 + N.land cp 63]
  else
    [240 + N.shiftr cp 18; 128 + N.land (N.shiftr cp 12) 63;
     128 + N.land (N.shiftr cp 6) 63; 128 + N.land cp 63].

(** Character classes. [\d] is ASCII only; [\s] and [trim] use the
    ECMAScript WhiteSpace and LineTerminator code points. *)
Definition isDigit (u : N) : bool := (48 <=? u) && (u <=? 57).
Definition isUpper (u : N) : bool := (65 <=? u) && (u <=? 90).
Definition isLower (u : N) : bool := (97 <=? u) && (u <=? 122).
Definition isAlnum (u : N) : bool := isDigit u || isUpper u || isLower u.

Definition isSpace (u : N) : bool :=
  ((9 <=? u) && (u <=? 13)) || (u =? 32) || (u =? 160) || (u =? 5760)
  || ((8192 <=? u) && (u <=? 8202)) || (u =? 8232) || (u =? 8233)
  || (u =? 8239) || (u =? 8287) || (u =? 12288) || (u =? 65279).

(** [String.prototype.toLowerCase], on the Basic Latin and Latin-1
    Supplement letters (every letter of the tables of this program lies
    there); other code units are left as they are. *)
Definition lower_unit (u : N) : N :=
  if isUpper u then u + 32
  else if (192 <=? u) && (u <=? 222) && negb (u =? 215) then u + 32
  else u.

Definition toLowerCase (s : jsstring) : jsstring := List.map lower_unit s.

Fixpoint trimStart (s : jsstring) : jsstring :=
  match s with
  | u :: r => if isSpace u then trimStart r else s
  | [] => []
  end.

Definition trimEnd (s : jsstring) : jsstring := rev (trimStart (rev s)).
Definition trim (s : jsstring) : jsstring := trimEnd (trimStart s).

Fixpoint startsWith (s prefix : jsstring) {struct prefix} : bool :=
  match prefix, s with
  | [], _ => true
  | p :: prefix', u :: s' => (u =? p) && startsWith s' prefix'
  | _ :: _, [] => false
  end.

Fixpoint includes (s sub : jsstring) : bool :=
  startsWith s sub ||
  match s with
  | [] => false
  | _ :: r => includes r sub
  end.

Definition substring0 (s : jsstring) (n : nat) : jsstring := firstn n s.

Definition eqb (a b : jsstring) : bool := bool_decide (a = b).

(** A string is truthy when it is not empty, a number when it is not 0. *)
Definition truthy_string (s : jsstring) : bool :=
  match s with [] => false | _ => true end.

Definition truthy_number (n : Z) : bool := negb (n =? 0)%Z.

(** [String(n)] for an integral number. *)
Definition String_of_number (n : Z) : jsstring :=
  lit (NilZero.string_of_int (Z.to_int n)).

(** Percent-encoding. *)
Definition hex_digit (n : N) : N := if n <? 10 then 48 + n else 55 + n.
Definition percent (b : N) : jsstring := [37; hex_digit (b / 16); hex_digit (b mod 16)].

Definition in_lit (set : string) (u : N) : bool :=
  existsb (N.eqb u) (lit set).

(** [encodeURIComponent]: [None] is the URIError raised on a lone
    surrogate. *)
Definition uri_unreserved (b : N) : bool := isAlnum b || in_lit "-_.!~*'()" b.

Definition uri_byte (b : N) : jsstring :=
  if uri_unreserved b then [b] else percent b.

Fixpoint encode_points (f : N -> jsstring) (cps : list (option N))
  : option jsstring :=
  match cps with
  | [] => Some []
  | None :: _ => None
  | Some cp :: r =>
    match encode_points f r with
    | Some t => Some (concat (List.map f (utf8_of_code_point cp)) ++ t)
    | None => None
    end
  end.

Definition encodeURIComponent (s : jsstring) : option jsstring :=
  encode_points uri_byte (code_points s).

(** The application/x-www-form-urlencoded byte serializer used by
    [URLSearchParams.prototype.toString]; a lone surrogate is first
    replaced by U+FFFD. *)
Definition form_byte (b : N) : jsstring :=
  if isAlnum b || in_lit "*-._" b then [b]
  else if b =? 32 then [43]
  else percent b.

Definition form_encode (s : jsstring) : jsstring :=
  concat (List.map
    (fun cp => concat (List.map form_byte
       (utf8_of_code_point (default 65533 cp))))
    (code_points s)).

(** Property access [o[k]] on an object literal whose own properties are
    strings: an own property, else a member inherited from
    [Object.prototype], else [undefined]. *)
Inductive value :=
| Undefined
| Str (s : jsstring)
| Builtin (k : jsstring).

Definition Object_prototype_keys : list jsstring :=
  List.map lit
    ["constructor"; "__defineGetter__"; "__defineSetter__"; "hasOwnProperty";
     "__lookupGetter__"; "__lookupSetter__"; "isPrototypeOf";
     "propertyIsEnumerable"; "toString"; "valueOf"; "__proto__";
     "toLocaleString"]%string.

Definition get (o : gmap (list N) (list N)) (k : jsstring) : value :=
  match o !! k with
  | Some v => Str v
  | None => if bool_decide (k ∈ Object_prototype_keys) then Builtin k else Undefined
  end.

Definition truthy (v : value) : bool :=
  match v with
  | Undefined => false
  | Str s => truthy_string s
  | Builtin _ => true
  end.

(** [String(v)]; the text of a built-in function is the one V8 prints. *)
Definition ToString (v : value) : jsstring :=
  match v with
  | Undefined => lit "undefined"
  | Str s => s
  | Builtin k =>
    if eqb k (lit "__proto__") then lit "[object Object]"
    else lit "function "
         ++ (if eqb k (lit "constructor") then lit "Object" else k)
         ++ lit "() { [native code] }"
  end.

(** [v || d] *)
Definition or_else (v : value) (d : jsstring) : value :=
  if truthy v then v else Str d.

End Js.

(** ** Regular expressions

    The fragment of ECMAScript patterns the scrapers use: a sequence of
    atoms, matched with the backtracking order of the language (a greedy
    star tries the longest run first, a lazy one the shortest). [exec]
    returns, for the leftmost match, the text matched by every atom, so
    that [m[0]] is their concatenation and a capture group is the
    concatenation of the atoms it spans. *)

Module Re.

Inductive atom :=
| One (p : N -> bool)            (* a class or a literal character *)
| Star (p : N -> bool)           (* p*  *)
| Lazy (p : N -> bool)           (* p*? *)
| NotAhead (s : Js.jsstring)     (* (?!s) *)
| End.                           (* $, without the m flag *)

Definition regex := list atom.

Definition push (u : N) (r : option (list Js.jsstring))
  : option (list Js.jsstring) :=
  match r with
  | Some (m :: ms) => Some ((u :: m) :: ms)
  | _ => None
  end.

Definition skip (r : option (list Js.jsstring)) : option (list Js.jsstring) :=
  match r with
  | Some ms => Some ([] :: ms)
  | None => None
  end.

Fixpoint match_here (r : regex) : Js.jsstring -> option (list Js.jsstring) :=
  match r with
  | [] => fun _ => Some []
  | One p :: r' => fun s =>
    match s with
    | u :: s' =>
      if p u then
        match match_here r' s' with
        | Some ms => Some ([u] :: ms)
        | None => None
        end
      else None
    | [] => None
    end
  | Star p :: r' =>
    fix greedy (s : Js.jsstring) : option (list Js.jsstring) :=
      match s with
      | u :: s' =>
        if p u then
          match push u (greedy s') with
          | Some ms => Some ms
          | None => skip (match_here r' s)
          end
        else skip (match_here r' s)
      | [] => skip (match_here r' [])
      end
  | Lazy p :: r' =>
    fix lazy (s : Js.jsstring) : option (list Js.jsstring) :=
      match skip (match_here r' s) with
      | Some ms => Some ms
      | None =>
        match s with
        | u :: s' => if p u then push u (lazy s') else None
        | [] => None
        end
      end
  | NotAhead l :: r' => fun s =>
    if Js.startsWith s l then None else skip (match_here r' s)
  | End :: r' => fun s =>
    match s with
    | [] => skip (match_here r' [])
    | _ :: _ => None
    end
  end.

(** [s.match(r)] for a pattern that starts with [^] *)
Definition exec_at_start (r : regex) (s : Js.jsstring)
  : option (list Js.jsstring) := match_here r s.

(** [s.match(r)] without the [g] flag: the leftmost match. *)
Fixpoint exec (r : regex) (s : Js.jsstring) : option (list Js.jsstring) :=
  match match_here r s with
  | Some ms => Some ms
  | None =>
    match s with
    | _ :: s' => exec r s'
    | [] => None
    end
  end.

(** [m[0]] *)
Definition whole (ms : list Js.jsstring) : Js.jsstring := concat ms.

(** the text matched by atoms [i], ..., [i + n - 1] *)
Definition group (i n : nat) (ms : list Js.jsstring) : Js.jsstring :=
  concat (firstn n (skipn i ms)).

Definition str (s : string) : regex :=
  List.map (fun u => One (N.eqb u)) (Js.lit s).

Definition str_i (s : string) : regex :=
  List.map (fun u => One (fun v => Js.lower_unit v =? Js.lower_unit u))
           (Js.lit s).

End Re.

(** ** The parsed document and the cheerio operations used

    [cheerio.load] yields a tree of element, text and comment nodes. A
    selection is the list of the matching elements in document order; an
    element is kept together with the siblings that follow it, which is
    what [.next()] reads. *)

Module Dom.

Inductive node :=
| Text (data : Js.jsstring)
| Comment (data : Js.jsstring)
| Element (name : Js.jsstring) (attribs : list (Js.jsstring * Js.jsstring))
          (children : list node).

Definition document := list node.

(** an element of a selection: the node and its following siblings *)
Definition selected : Type := node * list node.

Definition is_element (n : node) : bool :=
  match n with Element _ _ _ => true | _ => false end.

Definition is_text (n : node) : bool :=
  match n with Text _ => true | _ => false end.

Definition contents (n : node) : list node :=
  match n with Element _ _ cs => cs | _ => [] end.

(** [textContent]: the text nodes below, in order; comments have none *)
Fixpoint textContent (n : node) : Js.jsstring :=
  match n with
  | Text d => d
  | Comment _ => []
  | Element _ _ cs =>
    (fix all (l : list node) : Js.jsstring :=
       match l with
       | [] => []
       | c :: l' => textContent c ++ all l'
       end) cs
  end.

(** [.text()] of a selection *)
Definition text (sel : list selected) : Js.jsstring :=
  concat (List.map (fun e => textContent (fst e)) sel).

(** [.text()] of a list of nodes, as [.contents().filter(...)] gives *)
Definition text_of_nodes (l : list node) : Js.jsstring :=
  concat (List.map textContent l).

(** all elements of a forest, each before its descendants *)
Fixpoint walk (n : node) (after : list node) : list selected :=
  match n with
  | Element _ _ cs =>
    (n, after) ::
    (fix forest (l : list node) : list selected :=
       match l with
       | [] => []
       | c :: l' => walk c l' ++ forest l'
       end) cs
  | _ => []
  end.

Fixpoint elements (l : list node) : list selected :=
  match l with
  | [] => []
  | c :: l' => walk c l' ++ elements l'
  end.

Fixpoint attr_lookup (k : Js.jsstring) (l : list (Js.jsstring * Js.jsstring))
  : option Js.jsstring :=
  match l with
  | [] => None
  | (k', v) :: l' => if Js.eqb k k' then Some v else attr_lookup k l'
  end.

(** [.attr(name)]; [None] is [undefined] *)
Definition attr (name : string) (n : node) : option Js.jsstring :=
  match n with
  | Element _ a _ => attr_lookup (Js.lit name) a
  | _ => None
  end.

(** the selectors of the two scrapers *)
Inductive selector :=
| Any                                          (* "*" *)
| Tag (name : string)                          (* "dt" *)
| TagAttrContains (name attribute sub : string) (* a[href*="/bostad/"] *)
| TagContains (name sub : string).             (* button:contains("kl") *)

Definition has_name (name : string) (n : node) : bool :=
  match n with
  | Element nm _ _ => Js.eqb nm (Js.lit name)
  | _ => false
  end.

Definition matches (s : selector) (n : node) : bool :=
  match s with
  | Any => is_element n
  | Tag name => has_name name n
  | TagAttrContains name a sub =>
    has_name name n &&
    match attr a n with
    | Some v => Js.includes v (Js.lit sub)
    | None => false
    end
  | TagContains name sub =>
    has_name name n && Js.includes (textContent n) (Js.lit sub)
  end.

(** [$(selector)] on the whole document *)
Definition select (doc : document) (s : selector) : list selected :=
  List.filter (fun e => matches s (fst e)) (elements doc).

(** [$(el).find(selector)]: the matching descendants of [el] *)
Definition find (s : selector) (n : node) : list selected :=
  List.filter (fun e => matches s (fst e)) (elements (contents n)).

(** [.first()] *)
Definition first (sel : list selected) : list selected := firstn 1 sel.

(** [.slice(0, n)] *)
Definition slice0 (n : nat) (sel : list selected) : list selected :=
  firstn n sel.

(** [$(el).next(selector)]: the sibling element that follows at once, if
    it matches *)
Fixpoint next_element (after : list node) : option selected :=
  match after with
  | [] => None
  | n :: r => if is_element n then Some (n, r) else next_element r
  end.

Definition next (s : selector) (e : selected) : list selected :=
  match next_element (snd e) with
  | Some e' => if matches s (fst e') then [e'] else []
  | None => []
  end.

End Dom.

(** ** Interfaces and constants of [index.ts] *)

Abbreviation js := Js.lit.

Record LocationResult := {
  id : Js.value;
  name : Js.jsstring;
  type : Js.jsstring;
}.

Record Listing := {
  title : Js.jsstring;
  url : Js.jsstring;
  price : Js.jsstring;
  rooms : Js.jsstring;
  area : Js.jsstring;
  monthlyFee : Js.jsstring;
  description : Js.jsstring;
  location : Js.jsstring;
  imageUrl : Js.jsstring;
}.

Definition COMMON_LOCATIONS_entries : list (Js.jsstring * Js.jsstring) :=
  [ (js "botkyrka", js "17885"); (js "danderyd", js "17892");
    (js "ekerö", js "17896"); (js "göteborg", js "17920");
    (js "haninge", js "17928"); (js "helsingborg", js "17932");
    (js "huddinge", js "17936"); (js "järfälla", js "17951");
    (js "jönköping", js "17748"); (js "lidingö", js "17846");
    (js "linköping", js "17847"); (js "lund", js "17987");
    (js "malmö", js "17989"); (js "nacka", js "17853");
    (js "norrköping", js "18002"); (js "norrtälje", js "18003");
    (js "salem", js "18019"); (js "sigtuna", js "18020");
    (js "sollentuna", js "18027"); (js "solna", js "18028");
    (js "stockholm", js "17744"); (js "sundbyberg", js "18042");
    (js "södertälje", js "17775"); (js "tyresö", js "17792");
    (js "täby", js "17793"); (js "upplands väsby", js "17798");
    (js "upplands-väsby", js "17798"); (js "uppsala", js "17745");
    (js "vallentuna", js "17804"); (js "värmdö", js "17818");
    (js "västerås", js "17821"); (js "örebro", js "17757");
    (js "österåker", js "17769") ].

Definition COMMON_LOCATIONS : gmap (list N) (list N) :=
  list_to_map COMMON_LOCATIONS_entries.

Definition PROPERTY_TYPES : gmap (list N) (list N) :=
  list_to_map
  [ (js "villa", js "villa"); (js "house", js "villa");
    (js "apartment", js "bostadsratt"); (js "lägenhet", js "bostadsratt");
    (js "bostadsrätt", js "bostadsratt"); (js "townhouse", js "radhus");
    (js "radhus", js "radhus"); (js "holiday", js "fritidsboende");
    (js "fritidshus", js "fritidsboende"); (js "plot", js "tomt");
    (js "tomt", js "tomt"); (js "farm", js "gard"); (js "gård", js "gard") ].

Definition SORT_ORDERS : gmap (list N) (list N) :=
  list_to_map
  [ (js "newest", js "newest"); (js "oldest", js "oldest");
    (js "cheapest", js "price_asc"); (js "expensive", js "price_desc");
    (js "largest", js "size_desc"); (js "smallest", js "size_asc");
    (js "lowest_fee", js "fee_asc"); (js "highest_fee", js "fee_desc") ].

(** ** The world outside the repository, and the monad of [async] code *)

(** What the location endpoint answers, as [findLocationId] types it:
    [Array<{ id: number; name: string; location_type?: string }>], or a
    value for which [Array.isArray] is false. *)
Record Hit := {
  hit_id : Z;
  hit_name : Js.jsstring;
  hit_location_type : option Js.jsstring;
}.

Inductive JsonValue :=
| JOther
| JArray (hits : list Hit).

(** the response of the direct [fetch]; [json = None]: [response.json()]
    rejects *)
Record DirectResponse := {
  direct_ok : bool;
  direct_json : option JsonValue;
}.

(** the body of the render service: [{ html?: string; error?: string }] *)
Record RenderData := {
  data_html : option Js.jsstring;
  data_error : option Js.jsstring;
}.

Record RenderResponse := {
  render_ok : bool;
  render_status : Z;
  render_text : Js.jsstring;
  render_json : option RenderData;
}.

(** the POST sent to the render service *)
Record RenderRequest := {
  endpoint : Js.jsstring;
  authorization : option Js.jsstring;
  body_url : Js.jsstring;
  body_timeout : Z;
}.

Inductive Request :=
| GET (url : Js.jsstring)
| POST (req : RenderRequest).

(** [None] from a fetch: the promise rejects (network failure). *)
Record World := {
  fetch_get : Js.jsstring -> option DirectResponse;
  fetch_post : RenderRequest -> option RenderResponse;
  JSON_parse : Js.jsstring -> option JsonValue;
  cheerio_load : Js.jsstring -> Dom.document;
}.

(** the two module variables written by [setBrowserRenderUrl] and
    [setBrowserRenderApiKey] *)
Record Settings := {
  browserRenderUrl : option Js.jsstring;
  browserRenderApiKey : option Js.jsstring;
}.

Definition setBrowserRenderUrl (u : Js.jsstring) (s : Settings) : Settings :=
  {| browserRenderUrl := Some u; browserRenderApiKey := browserRenderApiKey s |}.

Definition setBrowserRenderApiKey (k : Js.jsstring) (s : Settings) : Settings :=
  {| browserRenderUrl := browserRenderUrl s; browserRenderApiKey := Some k |}.

(** a thrown value: [new Error(message)], or an exception raised by the
    runtime (a rejected fetch, a SyntaxError of [json()], a URIError) *)
Inductive exn :=
| Error (message : Js.jsstring)
| Rejection.

Inductive Result (A : Type) :=
| Ok (a : A)
| Throw (e : exn).

Arguments Ok {A} a.
Arguments Throw {A} e.

(** requests are appended to the trace in the order they are sent *)
Definition M (A : Type) : Type :=
  World -> Settings -> list Request -> Result A * list Request.

Definition ret {A} (a : A) : M A := fun _ _ t => (Ok a, t).

Definition throw {A} (e : exn) : M A := fun _ _ t => (Throw e, t).

Definition bind {A B} (m : M A) (k : A -> M B) : M B :=
  fun w s t =>
    match m w s t with
    | (Ok a, t') => k a w s t'
    | (Throw e, t') => (Throw e, t')
    end.

(** [try { m } catch { h }] *)
Definition catch {A} (m : M A) (h : exn -> M A) : M A :=
  fun w s t =>
    match m w s t with
    | (Ok a, t') => (Ok a, t')
    | (Throw e, t') => h e w s t'
    end.

Definition settings : M Settings := fun _ s t => (Ok s, t).

Definition world : M World := fun w _ t => (Ok w, t).

Definition of_option {A} (o : option A) : M A :=
  match o with
  | Some a => ret a
  | None => throw Rejection
  end.

(** [await fetch(url, { headers })] *)
Definition fetch (u : Js.jsstring) : M DirectResponse :=
  fun w s t => of_option (fetch_get w u) w s (t ++ [GET u]).

(** [await fetch(browserRenderUrl, { method: "POST", headers, body })] *)
Definition fetch_render (r : RenderRequest) : M RenderResponse :=
  fun w s t => of_option (fetch_post w r) w s (t ++ [POST r]).

Notation "'let*' x ':=' m 'in' k" := (bind m (fun x => k))
  (at level 10, x name, m at level 100, k at level 200).

(** running an operation from an empty trace *)
Definition run {A} (m : M A) (w : World) (s : Settings)
  : Result A * list Request := m w s [].

(** ** HTTP helpers *)

Definition truthy_opt (o : option Js.jsstring) : bool :=
  match o with
  | Some v => Js.truthy_string v
  | None => false
  end.

Definition fetchViaRenderer (url : Js.jsstring) : M Js.jsstring :=
  let* s := settings in
  match browserRenderUrl s with
  | Some renderUrl =>
    if Js.truthy_string renderUrl then
      let headers :=
        match browserRenderApiKey s with
        | Some key =>
          if Js.truthy_string key then Some (js "Bearer " ++ key) else None
        | None => None
        end in
      let* response :=
        fetch_render {| endpoint := renderUrl; authorization := headers;
                        body_url := url; body_timeout := 10000 |} in
      if negb (render_ok response) then
        throw (Error (js "Browser render failed ("
                      ++ Js.String_of_number (render_status response)
                      ++ js "): " ++ render_text response))
      else
        let* data := of_option (render_json response) in
        if truthy_opt (data_error data) then
          throw (Error (js "Browser render error: "
                        ++ default [] (data_error data)))
        else if negb (truthy_opt (data_html data)) then
          throw (Error (js "Browser render returned empty HTML"))
        else ret (default [] (data_html data))
    else
      throw (Error (js "BROWSER_RENDER_URL not configured. Set it as an environment variable."))
  | None =>
    throw (Error (js "BROWSER_RENDER_URL not configured. Set it as an environment variable."))
  end.

Definition bot_challenge : exn :=
  Error (js "Hemnet is showing a bot verification challenge. Please try again later.").

Definition fetchPage (url : Js.jsstring) : M Js.jsstring :=
  let* html := fetchViaRenderer url in
  if Js.includes html (js "Verify you are human") then throw bot_challenge
  else ret html.

(** /<pre[^>]*>([\s\S]*?)<\/pre>/i ; the group is atom 6 *)
Definition pre_re : Re.regex :=
  Re.str_i "<pre" ++ [Re.Star (fun u => negb (u =? 62))] ++ Re.str ">"
  ++ [Re.Lazy (fun _ => true)] ++ Re.str_i "</pre>".

(** the second half of [fetchJson]: the page through the renderer, and
    the JSON inside its [<pre>] block *)
Definition fetchJson_fallback (url : Js.jsstring) : M JsonValue :=
  let* html := fetchViaRenderer url in
  let* w := world in
  match Re.exec pre_re html with
  | Some preMatch =>
    match JSON_parse w (Js.trim (Re.group 6 1 preMatch)) with
    | Some v => ret v
    | None => throw (Error (js "Could not extract JSON from " ++ url))
    end
  | None => throw (Error (js "Could not extract JSON from " ++ url))
  end.

Definition fetchJson (url : Js.jsstring) : M JsonValue :=
  (* the try block catches a rejected fetch, not a rejected json(), which
     is returned without being awaited *)
  let* direct :=
    catch (let* response := fetch url in ret (Some response))
          (fun _ => ret None) in
  match direct with
  | Some response =>
    if direct_ok response then of_option (direct_json response)
    else fetchJson_fallback url
  | None => fetchJson_fallback url
  end.

(** ** Location lookup *)

Definition autocomplete_url (q : Js.jsstring) : Js.jsstring :=
  js "https://www.hemnet.se/locations/show?q=" ++ q ++ js "&h=1".

Definition findLocationId (location : Js.jsstring) : M (option LocationResult) :=
  let normalized := Js.trim (Js.toLowerCase location) in
  if Js.truthy (Js.get COMMON_LOCATIONS normalized) then
    ret (Some {| id := Js.get COMMON_LOCATIONS normalized;
                 name := location;
                 type := js "kommun" |})
  else
    catch
      (let* q := of_option (Js.encodeURIComponent location) in
       let* data := fetchJson (autocomplete_url q) in
       match data with
       | JArray (first :: _) =>
         ret (Some {| id := Js.Str (Js.String_of_number (hit_id first));
                      name := if Js.truthy_string (hit_name first)
                              then hit_name first else location;
                      type := if truthy_opt (hit_location_type first)
                              then default [] (hit_location_type first)
                              else js "unknown" |})
       | _ => ret None
       end)
      (fun _ => ret None).

(** ** URL builders *)

Inductive NewConstruction := nc_show | nc_only | nc_hide.

Inductive OpenHouse := oh_today | oh_tomorrow | oh_weekend.

(** every field is optional; [None] is an absent field *)
Record SearchOptions := {
  locationId : option Js.jsstring;
  minRooms : option Z;
  maxRooms : option Z;
  minPrice : option Z;
  maxPrice : option Z;
  minArea : option Z;
  maxArea : option Z;
  maxFee : option Z;
  propertyTypes : option (list Js.jsstring);
  newConstruction : option NewConstruction;
  keywords : option Js.jsstring;
  openHouse : option OpenHouse;
  hasBalcony : option bool;
  hasElevator : option bool;
  daysListed : option Z;
  sortOrder : option Js.jsstring;
}.

(** [URLSearchParams]: the list of name and value pairs, in the order of
    the [append] calls *)
Definition URLSearchParams := list (Js.jsstring * Js.jsstring).

Definition append (name : string) (value : Js.jsstring)
  (params : URLSearchParams) : URLSearchParams :=
  params ++ [(js name, value)].

Definition params_toString (params : URLSearchParams) : Js.jsstring :=
  match List.map (fun p => Js.form_encode (fst p) ++ js "=" ++ Js.form_encode (snd p)) params with
  | [] => []
  | x :: r => x ++ concat (List.map (fun y => js "&" ++ y) r)
  end.

(** [if (options.f) params.append(name, String(options.f))] *)
Definition if_number (f : option Z) (name : string)
  (params : URLSearchParams) : URLSearchParams :=
  match f with
  | Some n =>
    if Js.truthy_number n then append name (Js.String_of_number n) params
    else params
  | None => params
  end.

(** [if (options.f) params.append(name, value(options.f))] for a string *)
Definition if_string (f : option Js.jsstring) (name : string)
  (value : Js.jsstring -> Js.jsstring)
  (params : URLSearchParams) : URLSearchParams :=
  match f with
  | Some v => if Js.truthy_string v then append name (value v) params else params
  | None => params
  end.

(** [if (options.f) params.append(name, "1")] *)
Definition if_flag (f : option bool) (name : string)
  (params : URLSearchParams) : URLSearchParams :=
  match f with
  | Some true => append name (js "1") params
  | _ => params
  end.

Definition ncMap (v : NewConstruction) : Js.jsstring :=
  match v with
  | nc_show => js "1"
  | nc_only => js "2"
  | nc_hide => js "0"
  end.

Definition openHouse_text (v : OpenHouse) : Js.jsstring :=
  match v with
  | oh_today => js "today"
  | oh_tomorrow => js "tomorrow"
  | oh_weekend => js "weekend"
  end.

Definition daysMap (n : Z) : option Js.jsstring :=
  if (n =? 1)%Z then Some (js "1d")
  else if (n =? 3)%Z then Some (js "3d")
  else if (n =? 7)%Z then Some (js "1w")
  else if (n =? 14)%Z then Some (js "2w")
  else if (n =? 30)%Z then Some (js "1m")
  else None.

(** [TABLE[key.toLowerCase()] || key], turned into text by [append] *)
Definition mapped (table : gmap (list N) (list N)) (key : Js.jsstring)
  : Js.jsstring :=
  Js.ToString (Js.or_else (Js.get table (Js.toLowerCase key)) key).

Definition buildSearchParams (options : SearchOptions) : URLSearchParams :=
  let params : URLSearchParams := [] in
  let params := if_string (locationId options) "location_ids[]" (fun v => v) params in
  let params := if_number (minRooms options) "rooms_min" params in
  let params := if_number (maxRooms options) "rooms_max" params in
  let params := if_number (minPrice options) "price_min" params in
  let params := if_number (maxPrice options) "price_max" params in
  let params := if_number (minArea options) "living_area_min" params in
  let params := if_number (maxArea options) "living_area_max" params in
  let params := if_number (maxFee options) "fee_max" params in
  let params :=
    match propertyTypes options with
    | Some types =>
      fold_left (fun ps t => append "item_types[]" (mapped PROPERTY_TYPES t) ps)
                types params
    | None => params
    end in
  let params :=
    match newConstruction options with
    | Some v => append "new_construction" (ncMap v) params
    | None => params
    end in
  let params := if_string (keywords options) "keywords" (fun v => v) params in
  let params :=
    match openHouse options with
    | Some v => append "upcoming_open_house" (openHouse_text v) params
    | None => params
    end in
  let params := if_flag (hasBalcony options) "balcony" params in
  let params := if_flag (hasElevator options) "elevator" params in
  let params :=
    match daysListed options with
    | Some n =>
      if Js.truthy_number n then
        append "published"
          (match daysMap n with
           | Some v => v
           | None => Js.String_of_number n
           end) params
      else params
    | None => params
    end in
  let params := if_string (sortOrder options) "order" (mapped SORT_ORDERS) params in
  params.

Definition buildSearchUrl (options : SearchOptions) : Js.jsstring :=
  js "https://www.hemnet.se/bostader?"
  ++ params_toString (buildSearchParams options).

(** ** Scrapers *)

Definition digit_or_space (u : N) : bool := Js.isDigit u || Js.isSpace u.

(** /(\d[\d\s]*\d)\s*kr(?!\/)/ *)
Definition price_re : Re.regex :=
  [Re.One Js.isDigit; Re.Star digit_or_space; Re.One Js.isDigit;
   Re.Star Js.isSpace] ++ Re.str "kr" ++ [Re.NotAhead (js "/")].

(** /(\d+)\s*rum/ *)
Definition rooms_re : Re.regex :=
  [Re.One Js.isDigit; Re.Star Js.isDigit; Re.Star Js.isSpace] ++ Re.str "rum".

(** /(\d+)\s*m²/ *)
Definition area_re : Re.regex :=
  [Re.One Js.isDigit; Re.Star Js.isDigit; Re.Star Js.isSpace] ++ Re.str "m²".

(** the fee pattern, written with spaces: ( \d [\d\s]* ) \s* kr\/mån *)
Definition fee_re : Re.regex :=
  [Re.One Js.isDigit; Re.Star digit_or_space; Re.Star Js.isSpace]
  ++ Re.str "kr/mån".

(** [match ? match[0] : ""] *)
Definition whole_or_empty (m : option (list Js.jsstring)) : Js.jsstring :=
  match m with
  | Some ms => Re.whole ms
  | None => []
  end.

(** [$(node).contents().filter(function () { return this.type === "text" }).text()] *)
Definition nodeText (n : Dom.node) : Js.jsstring :=
  Dom.text_of_nodes (List.filter Dom.is_text (Dom.contents n)).

(** the loop over [$el.find("*")] that sets [feeMatch]: the match in the
    first descendant element whose own text nodes, put together, match *)
Fixpoint feeMatch_in (nodes : list Dom.selected) : option (list Js.jsstring) :=
  match nodes with
  | [] => None
  | node :: rest =>
    match Re.exec fee_re (nodeText (fst node)) with
    | Some m => Some m
    | None => feeMatch_in rest
    end
  end.

Definition feeMatch (el : Dom.node) : option (list Js.jsstring) :=
  feeMatch_in (Dom.find Dom.Any el).

(** [srcset.split(",")[0]?.trim().split(/\s+/)[0] || ""] *)
Fixpoint until (p : N -> bool) (s : Js.jsstring) : Js.jsstring :=
  match s with
  | [] => []
  | u :: r => if p u then [] else u :: until p r
  end.

Definition srcsetFirst (srcset : Js.jsstring) : Js.jsstring :=
  until Js.isSpace (Js.trim (until (N.eqb 44) srcset)).

Fixpoint first_candidate (l : list Js.jsstring) : Js.jsstring :=
  match l with
  | [] => []
  | candidate :: r =>
    if Js.startsWith candidate (js "http") && Js.includes candidate (js "hemnet")
    then candidate else first_candidate r
  end.

Definition image_of (imgNode : Dom.node) : Js.jsstring :=
  let src := default [] (Dom.attr "src" imgNode) in
  let srcset := default [] (Dom.attr "srcset" imgNode) in
  let dataSrc := default [] (Dom.attr "data-src" imgNode) in
  first_candidate [src; srcsetFirst srcset; dataSrc].

(** the loop over [$el.find("img")]: stops at the first image found *)
Fixpoint imageUrl_in (imgs : list Dom.selected) : Js.jsstring :=
  match imgs with
  | [] => []
  | img :: rest =>
    if Js.truthy_string (image_of (fst img)) then image_of (fst img)
    else imageUrl_in rest
  end.

(** the body of the [.each] callback of [searchHemnet]; [None] when it
    returns without pushing a listing *)
Definition listing_of (locationName : Js.jsstring) (el : Dom.node)
  : option Listing :=
  match Dom.attr "href" el with
  | Some href =>
    if negb (Js.truthy_string href) || negb (Js.includes href (js "/bostad/"))
    then None
    else
      let allText := Dom.textContent el in
      let title := Js.trim (Dom.text (Dom.first (Dom.find (Dom.Tag "h2") el))) in
      let description :=
        Js.substring0
          (Js.trim (Dom.text (Dom.first (Dom.find (Dom.Tag "p") el)))) 200 in
      let priceMatch := Re.exec price_re allText in
      let roomsMatch := Re.exec rooms_re allText in
      let areaMatch := Re.exec area_re allText in
      let imageUrl := imageUrl_in (Dom.find (Dom.Tag "img") el) in
      if Js.truthy_string title || Js.truthy_string href then
        Some {| title := title;
                url := if Js.startsWith href (js "http") then href
                       else js "https://www.hemnet.se" ++ href;
                price := Js.trim (whole_or_empty priceMatch);
                rooms := whole_or_empty roomsMatch;
                area := whole_or_empty areaMatch;
                monthlyFee := whole_or_empty (feeMatch el);
                description := description;
                location := locationName;
                imageUrl := imageUrl |}
      else None
  | None => None
  end.

Definition listing_anchors (doc : Dom.document) : list Dom.selected :=
  Dom.select doc (Dom.TagAttrContains "a" "href" "/bostad/").

(** the summary extraction of [searchHemnet]: the listings pushed while
    visiting [$('a[href*="/bostad/"]').slice(0, 25)] *)
Definition extractListings (doc : Dom.document) (locationName : Js.jsstring)
  : list Listing :=
  omap (fun el => listing_of locationName (fst el))
       (Dom.slice0 25 (listing_anchors doc)).

Definition quoted (s : Js.jsstring) : Js.jsstring := [34] ++ s ++ [34].

Definition location_not_found (location : Js.jsstring) : exn :=
  Error (js "Could not find location " ++ quoted location
         ++ js ". Try a Swedish municipality name like "
         ++ quoted (js "Stockholm") ++ js ", " ++ quoted (js "Göteborg")
         ++ js ", or " ++ quoted (js "Upplands Väsby") ++ js ".").

(** [{ locationId, ...options }] *)
Definition with_locationId (l : option Js.jsstring) (o : SearchOptions)
  : SearchOptions :=
  {| locationId := l;
     minRooms := minRooms o; maxRooms := maxRooms o;
     minPrice := minPrice o; maxPrice := maxPrice o;
     minArea := minArea o; maxArea := maxArea o; maxFee := maxFee o;
     propertyTypes := propertyTypes o; newConstruction := newConstruction o;
     keywords := keywords o; openHouse := openHouse o;
     hasBalcony := hasBalcony o; hasElevator := hasElevator o;
     daysListed := daysListed o; sortOrder := sortOrder o |}.

(** [location] is [string | null]; the options carry no [locationId] of
    their own. [append] turns the id into text, and a truthy id has a
    truthy text. *)
Definition searchHemnet (location : option Js.jsstring) (options : SearchOptions)
  : M (list Listing * Js.jsstring) :=
  let* resolved :=
    if truthy_opt location then
      let* locationResult := findLocationId (default [] location) in
      match locationResult with
      | None => throw (location_not_found (default [] location))
      | Some r => ret (Some (Js.ToString (id r)), name r)
      end
    else ret (None, js "Sverige") in
  let locationName := snd resolved in
  let searchUrl := buildSearchUrl (with_locationId (fst resolved) options) in
  let* html := fetchPage searchUrl in
  let* w := world in
  ret (extractListings (cheerio_load w html) locationName, locationName).

(** The fields of [ListingDetails] that [getListingDetails] reads with
    [getDefinitionByTerm], and the four that are not strings: the image
    count, the two flags and the coordinates. The remaining fields of the
    interface are computed from the same document without reading these,
    and are left out. [coordinates] holds the two numerals that
    [parseFloat] reads. *)
Record ListingDetails := {
  d_pricePerSqm : Js.jsstring;
  d_propertyType : Js.jsstring;
  d_tenureType : Js.jsstring;
  d_rooms : Js.jsstring;
  d_area : Js.jsstring;
  d_balcony : Js.jsstring;
  d_patio : Js.jsstring;
  d_floor : Js.jsstring;
  d_buildYear : Js.jsstring;
  d_energyClass : Js.jsstring;
  d_monthlyFee : Js.jsstring;
  d_runningCosts : Js.jsstring;
  d_imageCount : Z;
  d_visitCount : Js.jsstring;
  d_hasFloorPlan : bool;
  d_hasBankIdBidding : bool;
  d_coordinates : option (Js.jsstring * Js.jsstring);
}.

(** the [.each] loop of [getDefinitionByTerm] over the [dt] elements *)
Fixpoint definition_in (dts : list Dom.selected) (term : Js.jsstring)
  : Js.jsstring :=
  match dts with
  | [] => []
  | el :: rest =>
    if Js.includes (Dom.textContent (fst el)) term
    then Js.trim (Dom.text (Dom.next (Dom.Tag "dd") el))
    else definition_in rest term
  end.

Definition getDefinitionByTerm (doc : Dom.document) (term : string)
  : Js.jsstring :=
  definition_in (Dom.select doc (Dom.Tag "dt")) (js term).

(** the pattern of the image count: ^ ( \d+ ) \s* bilder $ *)
Definition imageCount_re : Re.regex :=
  [Re.One Js.isDigit; Re.Star Js.isDigit; Re.Star Js.isSpace]
  ++ Re.str "bilder" ++ [Re.End].

(** [parseInt(digits, 10)] on a run of digits *)
Definition parseInt (digits : Js.jsstring) : Z :=
  fold_left (fun n u => (10 * n + Z.of_N (u - 48))%Z) digits 0%Z.

(** the loop over [$("*")] that sets [imageCount] *)
Fixpoint imageCount_in (els : list Dom.selected) : Z :=
  match els with
  | [] => 0%Z
  | el :: rest =>
    match Re.exec_at_start imageCount_re (Js.trim (Dom.textContent (fst el))) with
    | Some m => parseInt (Re.group 0 2 m)
    | None => imageCount_in rest
    end
  end.

(** the pattern of the map link: ll= ( [\d.-]+ ) , ( [\d.-]+ ) *)
Definition coordinate_unit (u : N) : bool :=
  Js.isDigit u || (u =? 46) || (u =? 45).

Definition coordinates_re : Re.regex :=
  Re.str "ll=" ++ [Re.One coordinate_unit; Re.Star coordinate_unit]
  ++ Re.str "," ++ [Re.One coordinate_unit; Re.Star coordinate_unit].

Definition coordinates_of (doc : Dom.document)
  : option (Js.jsstring * Js.jsstring) :=
  match Dom.first (Dom.select doc (Dom.TagAttrContains "a" "href" "maps.google.com")) with
  | mapsLink :: _ =>
    let mapsHref := default [] (Dom.attr "href" (fst mapsLink)) in
    match Re.exec coordinates_re mapsHref with
    | Some coordMatch => Some (Re.group 3 2 coordMatch, Re.group 6 2 coordMatch)
    | None => None
    end
  | [] => None
  end.

(** the part of [getListingDetails] that follows the fetch *)
Definition extractDetails (html : Js.jsstring) (doc : Dom.document)
  : ListingDetails :=
  {| d_propertyType := getDefinitionByTerm doc "Bostadstyp";
     d_tenureType := getDefinitionByTerm doc "Upplåtelseform";
     d_rooms := getDefinitionByTerm doc "Antal rum";
     d_area := getDefinitionByTerm doc "Boarea";
     d_balcony := getDefinitionByTerm doc "Balkong";
     d_patio := getDefinitionByTerm doc "Uteplats";
     d_floor := getDefinitionByTerm doc "Våning";
     d_buildYear := getDefinitionByTerm doc "Byggår";
     d_energyClass := getDefinitionByTerm doc "Energiklass";
     d_monthlyFee := getDefinitionByTerm doc "Avgift";
     d_runningCosts := getDefinitionByTerm doc "Driftkostnad";
     d_pricePerSqm := getDefinitionByTerm doc "Pris/m²";
     d_visitCount := getDefinitionByTerm doc "Antal besök";
     d_imageCount := imageCount_in (Dom.select doc Dom.Any);
     d_hasFloorPlan :=
       negb (length (Dom.select doc (Dom.TagContains "button" "Planritning")) =? 0)%nat;
     d_hasBankIdBidding :=
       Js.includes (Js.toLowerCase html) (js "budgivning med bankid");
     d_coordinates := coordinates_of doc |}.

Definition invalid_url : exn :=
  Error (js "Invalid Hemnet listing URL. URL must contain 'hemnet.se/bostad/'").

Definition listing_removed : exn :=
  Error (js "This listing has been removed from Hemnet.").

Definition getListingDetails (url : Js.jsstring) : M ListingDetails :=
  if negb (Js.includes url (js "hemnet.se/bostad/")) then throw invalid_url
  else
    let* html := fetchPage url in
    let* w := world in
    let doc := cheerio_load w html in
    if Js.includes html (js "Sidan hittades inte")
       || Js.includes html (js "Den här bostaden finns inte längre")
    then throw listing_removed
    else ret (extractDetails html doc).

(** ** Definitions used to state the properties *)

(** a filter with every field absent *)
Definition no_options : SearchOptions :=
  {| locationId := None; minRooms := None; maxRooms := None;
     minPrice := None; maxPrice := None; minArea := None; maxArea := None;
     maxFee := None; propertyTypes := None; newConstruction := None;
     keywords := None; openHouse := None; hasBalcony := None;
     hasElevator := None; daysListed := None; sortOrder := None |}.

(** the fixed table of parameter names *)
Definition parameter_names : list Js.jsstring :=
  List.map js
    ["location_ids[]"; "rooms_min"; "rooms_max"; "price_min"; "price_max";
     "living_area_min"; "living_area_max"; "fee_max"; "item_types[]";
     "new_construction"; "keywords"; "upcoming_open_house"; "balcony";
     "elevator"; "published"; "order"]%string.

Definition one_if (b : bool) (name : string) : list Js.jsstring :=
  if b then [js name] else [].

Definition present {A} (f : option A) : bool :=
  match f with Some _ => true | None => false end.

(** The names the specification predicts: one parameter for every field
    that is present, one per element for [propertyTypes]. *)
Definition names_of_present_fields (o : SearchOptions) : list Js.jsstring :=
  one_if (present (locationId o)) "location_ids[]"
  ++ one_if (present (minRooms o)) "rooms_min"
  ++ one_if (present (maxRooms o)) "rooms_max"
  ++ one_if (present (minPrice o)) "price_min"
  ++ one_if (present (maxPrice o)) "price_max"
  ++ one_if (present (minArea o)) "living_area_min"
  ++ one_if (present (maxArea o)) "living_area_max"
  ++ one_if (present (maxFee o)) "fee_max"
  ++ repeat (js "item_types[]") (length (default [] (propertyTypes o)))
  ++ one_if (present (newConstruction o)) "new_construction"
  ++ one_if (present (keywords o)) "keywords"
  ++ one_if (present (openHouse o)) "upcoming_open_house"
  ++ one_if (present (hasBalcony o)) "balcony"
  ++ one_if (present (hasElevator o)) "elevator"
  ++ one_if (present (daysListed o)) "published"
  ++ one_if (present (sortOrder o)) "order".

(** a field is set when it is present and its value is truthy: a number
    other than 0, a string other than the empty one, the flag [true] *)
Definition set_number (f : option Z) : bool :=
  match f with Some n => Js.truthy_number n | None => false end.

Definition set_flag (f : option bool) : bool := default false f.

Definition names_of_set_fields (o : SearchOptions) : list Js.jsstring :=
  one_if (truthy_opt (locationId o)) "location_ids[]"
  ++ one_if (set_number (minRooms o)) "rooms_min"
  ++ one_if (set_number (maxRooms o)) "rooms_max"
  ++ one_if (set_number (minPrice o)) "price_min"
  ++ one_if (set_number (maxPrice o)) "price_max"
  ++ one_if (set_number (minArea o)) "living_area_min"
  ++ one_if (set_number (maxArea o)) "living_area_max"
  ++ one_if (set_number (maxFee o)) "fee_max"
  ++ repeat (js "item_types[]") (length (default [] (propertyTypes o)))
  ++ one_if (present (newConstruction o)) "new_construction"
  ++ one_if (truthy_opt (keywords o)) "keywords"
  ++ one_if (present (openHouse o)) "upcoming_open_house"
  ++ one_if (set_flag (hasBalcony o)) "balcony"
  ++ one_if (set_flag (hasElevator o)) "elevator"
  ++ one_if (set_number (daysListed o)) "published"
  ++ one_if (truthy_opt (sortOrder o)) "order".

(** the terms [getListingDetails] looks up, each with the field it fills *)
Definition term_fields : list (string * (ListingDetails -> Js.jsstring)) :=
  [ ("Bostadstyp", d_propertyType); ("Upplåtelseform", d_tenureType);
    ("Antal rum", d_rooms); ("Boarea", d_area); ("Balkong", d_balcony);
    ("Uteplats", d_patio); ("Våning", d_floor); ("Byggår", d_buildYear);
    ("Energiklass", d_energyClass); ("Avgift", d_monthlyFee);
    ("Driftkostnad", d_runningCosts); ("Pris/m²", d_pricePerSqm);
    ("Antal besök", d_visitCount) ]%string.




(** what one call adds to the trace: nothing, or one POST asking the
    renderer for [url] *)
Definition at_most_one_render (url : Js.jsstring) (extra : list Request) : Prop :=
  extra = [] \/ exists q, extra = [POST q] /\ body_url q = url.


(** the [url] field of the listing built from an anchor *)
Definition listing_url (el : Dom.node) : Js.jsstring :=
  match Dom.attr "href" el with
  | Some href =>
    if Js.startsWith href (js "http") then href
    else js "https://www.hemnet.se" ++ href
  | None => []
  end.

(** what an atom of a pattern can match *)
Definition atom_matches (a : Re.atom) (m : Js.jsstring) : Prop :=
  match a with
  | Re.One p => exists u, m = [u] /\ p u = true
  | Re.Star p | Re.Lazy p => forallb p m = true
  | Re.NotAhead _ | Re.End => m = []
  end.

(** ** Sample inputs, for running the operations *)

(** A world in which the direct fetch is rejected, the render service
    answers every request with the page [html], [cheerio.load] parses
    that page into [doc], and [JSON.parse] reads the text [fst json] as
    the value [snd json]. *)
Definition sample_world (html : Js.jsstring) (doc : Dom.document)
  (json : option (Js.jsstring * JsonValue)) : World :=
  {| fetch_get := fun _ => None;
     fetch_post := fun _ =>
       Some {| render_ok := true; render_status := 200; render_text := [];
               render_json := Some {| data_html := Some html;
                                      data_error := None |} |};
     JSON_parse := fun text =>
       match json with
       | Some (t, v) => if Js.eqb text t then Some v else None
       | None => None
       end;
     cheerio_load := fun markup => if Js.eqb markup html then doc else [] |}.

Definition sample_settings : Settings :=
  {| browserRenderUrl := Some (js "http://localhost:3000/render");
     browserRenderApiKey := None |}.


(** a page that carries the challenge marker next to other content *)
Definition challenge_page : Js.jsstring :=
  js "<html><body><h1>Hemnet</h1><p>Verify you are human</p><a href='/bostad/1'>x</a></body></html>".

Definition challenge_world : World := sample_world challenge_page [] None.

(** the filter [{ minRooms: 2, maxPrice: 3000000 }] *)
Definition two_rooms_three_million : SearchOptions :=
  {| locationId := None; minRooms := Some 2%Z; maxRooms := None;
     minPrice := None; maxPrice := Some 3000000%Z; minArea := None;
     maxArea := None; maxFee := None; propertyTypes := None;
     newConstruction := None; keywords := None; openHouse := None;
     hasBalcony := None; hasElevator := None; daysListed := None;
     sortOrder := None |}.

(** the filter [{ maxFee: 0, hasBalcony: false }] *)
Definition no_fee_no_balcony : SearchOptions :=
  {| locationId := None; minRooms := None; maxRooms := None;
     minPrice := None; maxPrice := None; minArea := None;
     maxArea := None; maxFee := Some 0%Z; propertyTypes := None;
     newConstruction := None; keywords := None; openHouse := None;
     hasBalcony := Some false; hasElevator := None; daysListed := None;
     sortOrder := None |}.

(** a hit whose reported type is the empty string *)
Definition kiruna_hit : Hit :=
  {| hit_id := 17960; hit_name := js "Kiruna kommun";
     hit_location_type := Some [] |}.

(** the JSON text of the array that holds [kiruna_hit] *)
Definition kiruna_json : Js.jsstring :=
  js "[{" ++ quoted (js "id") ++ js ":17960," ++ quoted (js "name") ++ js ":"
  ++ quoted (js "Kiruna kommun") ++ js "," ++ quoted (js "location_type")
  ++ js ":" ++ quoted [] ++ js "}]".

Definition kiruna_world : World :=
  sample_world (js "<html><body><pre>" ++ kiruna_json ++ js "</pre></body></html>")
               [] (Some (kiruna_json, JArray [kiruna_hit])).

(** thirty listing anchors, [/bostad/1] to [/bostad/30], in one [div] *)
Definition anchor (k : nat) : Dom.node :=
  Dom.Element (js "a")
    [(js "href", js "/bostad/" ++ Js.String_of_number (Z.of_nat k))]
    [Dom.Element (js "h2") [] [Dom.Text (js "Storgatan")]].

Definition thirty_anchors : Dom.document :=
  [Dom.Element (js "div") [] (List.map anchor (seq 1 30))].

Definition thirty_anchors_markup : Js.jsstring :=
  js "<div>"
  ++ concat (List.map (fun k => js "<a href='/bostad/"
                               ++ Js.String_of_number (Z.of_nat k)
                               ++ js "'><h2>Storgatan</h2></a>") (seq 1 30))
  ++ js "</div>".

Definition thirty_anchors_world : World :=
  sample_world thirty_anchors_markup thirty_anchors None.



(** a page with one definition list that has no [Boarea] entry *)
Definition two_terms_markup : Js.jsstring :=
  js "<dl><dt>Antal rum</dt><dd> 3 rum </dd><dt>Avgift</dt> <dd>4 100 kr/mån</dd></dl>".

Definition two_terms_page : Dom.document :=
  [Dom.Element (js "dl") []
     [Dom.Element (js "dt") [] [Dom.Text (js "Antal rum")];
      Dom.Element (js "dd") [] [Dom.Text (js " 3 rum ")];
      Dom.Element (js "dt") [] [Dom.Text (js "Avgift")];
      Dom.Text (js " ");
      Dom.Element (js "dd") [] [Dom.Text (js "4 100 kr/mån")]]].

Definition two_terms_world : World :=
  sample_world two_terms_markup two_terms_page None.


(** a page with an image counter, a floor-plan button and a map link *)
Definition gallery_page : Dom.document :=
  [Dom.Element (js "div") []
     [Dom.Element (js "span") [] [Dom.Text (js " 24 bilder ")];
      Dom.Element (js "button") [] [Dom.Text (js "Planritning")];
      Dom.Element (js "a")
        [(js "href", js "https://maps.google.com/maps?ll=59.3293,18.0686&z=15")]
        [Dom.Text (js "Karta")]]].

(** * Further code of [index.ts] and of [scripts/fetch-location-ids.ts] *)

(** ** Further operations of the language *)

Module Jsx.

(** [String.prototype.toUpperCase], on the Basic Latin and Latin-1
    Supplement letters; other code units are left as they are. *)
Definition upper_unit (u : N) : Js.jsstring :=
  if Js.isLower u then [u - 32]
  else if u =? 223 then [83; 83]
  else if u =? 181 then [924]
  else if u =? 255 then [376]
  else if (224 <=? u) && (u <=? 254) && negb (u =? 247) then [u - 32]
  else [u].

Definition toUpperCase (s : Js.jsstring) : Js.jsstring :=
  concat (List.map upper_unit s).

(** [s.charAt(0)] and [s.slice(1)] *)
Definition charAt0 (s : Js.jsstring) : Js.jsstring := firstn 1 s.
Definition slice1 (s : Js.jsstring) : Js.jsstring := skipn 1 s.

(** [s.replace(/\s/g, r)] *)
Definition replace_spaces (r s : Js.jsstring) : Js.jsstring :=
  concat (List.map (fun u => if Js.isSpace u then r else [u]) s).

(** [s.replace(/\s+/g, " ")]: every run of white space becomes one
    space; [in_run] tells that the unit before was white space *)
Fixpoint collapse_from (in_run : bool) (s : Js.jsstring) : Js.jsstring :=
  match s with
  | [] => []
  | u :: r =>
    if Js.isSpace u then
      if in_run then collapse_from true r else 32 :: collapse_from true r
    else u :: collapse_from false r
  end.

Definition collapse_spaces (s : Js.jsstring) : Js.jsstring :=
  collapse_from false s.

(** [\w] *)
Definition isWord (u : N) : bool := Js.isAlnum u || (u =? 95).

End Jsx.

(** ** Regular expressions with groups

    The patterns of the sold-listing scraper use optional groups and one
    capture group each. [Rx] matches by continuation: every choice (a
    greedy star, an optional group) is tried in the order of the language
    until the rest of the pattern succeeds. *)

Module Rx.

Inductive rx :=
| Cls (p : N -> bool)        (* a class or a literal character *)
| Cat (a b : rx)             (* ab *)
| Rep (p : N -> bool)        (* p* *)
| Opt (a : rx)               (* (?:a)? *)
| Cap (a : rx)               (* (a) *)
| Not (a : rx)               (* (?!a) *)
| Eol                        (* $, without the m flag *)
| Nil.

(** what is left of the input, and the captures closed so far *)
Definition state : Type := Js.jsstring * list Js.jsstring.

(** the text between two positions of the same input *)
Definition consumed (from rest : Js.jsstring) : Js.jsstring :=
  firstn (length from - length rest) from.

Fixpoint go (r : rx) (s : Js.jsstring) (caps : list Js.jsstring)
  (k : Js.jsstring -> list Js.jsstring -> option state) : option state :=
  match r with
  | Cls p =>
    match s with
    | u :: s' => if p u then k s' caps else None
    | [] => None
    end
  | Cat a b => go a s caps (fun s' caps' => go b s' caps' k)
  | Rep p =>
    (fix greedy (s : Js.jsstring) : option state :=
       match s with
       | u :: s' =>
         if p u then
           match greedy s' with
           | Some st => Some st
           | None => k s caps
           end
         else k s caps
       | [] => k [] caps
       end) s
  | Opt a =>
    match go a s caps k with
    | Some st => Some st
    | None => k s caps
    end
  | Cap a => go a s caps (fun s' caps' => k s' (caps' ++ [consumed s s']))
  | Not a =>
    match go a s caps (fun s' caps' => Some (s', caps')) with
    | Some _ => None
    | None => k s caps
    end
  | Eol =>
    match s with
    | [] => k [] caps
    | _ :: _ => None
    end
  | Nil => k s caps
  end.

(** a match: [m[0]] and the captures [m[1]], [m[2]], ... *)
Definition found : Type := Js.jsstring * list Js.jsstring.

(** the pattern tried at the head of [s] *)
Definition at_start (r : rx) (s : Js.jsstring) : option found :=
  match go r s [] (fun s' caps' => Some (s', caps')) with
  | Some (rest, caps) => Some (consumed s rest, caps)
  | None => None
  end.

(** [s.match(r)] without the [g] flag: the leftmost match *)
Fixpoint leftmost (r : rx) (s : Js.jsstring) : option found :=
  match at_start r s with
  | Some m => Some m
  | None =>
    match s with
    | _ :: s' => leftmost r s'
    | [] => None
    end
  end.

Fixpoint seq (l : list rx) : rx :=
  match l with
  | [] => Nil
  | a :: l' => Cat a (seq l')
  end.

Definition chars (s : string) : rx :=
  seq (List.map (fun u => Cls (N.eqb u)) (Js.lit s)).

Definition chars_i (s : string) : rx :=
  seq (List.map (fun u => Cls (fun v => Js.lower_unit v =? Js.lower_unit u))
                (Js.lit s)).

Definition one_of (set : string) : N -> bool :=
  fun u => existsb (N.eqb u) (Js.lit set).

(** [p+] *)
Definition plus (p : N -> bool) : rx := Cat (Cls p) (Rep p).

(** [m[0]] and [m[1]] of an optional match *)
Definition matched (m : option found) : Js.jsstring :=
  match m with Some (w, _) => w | None => [] end.

Definition group1 (m : found) : Js.jsstring :=
  match snd m with c :: _ => c | [] => [] end.

End Rx.

(** ** The sold-listing search *)

Record SoldListing := {
  sold_address : Js.jsstring;
  sold_location : Js.jsstring;
  sold_soldPrice : Js.jsstring;
  sold_priceChangePercent : Js.jsstring;
  sold_saleDate : Js.jsstring;
  sold_rooms : Js.jsstring;
  sold_area : Js.jsstring;
  sold_pricePerSqm : Js.jsstring;
  sold_monthlyFee : Js.jsstring;
  sold_propertyType : Js.jsstring;
  sold_agency : Js.jsstring;
  sold_url : Js.jsstring;
}.

(** [SoldSearchOptions]; [None] is an absent field *)
Record SoldSearchOptions := {
  s_locationId : option Js.jsstring;
  s_minRooms : option Z;
  s_maxRooms : option Z;
  s_minPrice : option Z;
  s_maxPrice : option Z;
  s_minArea : option Z;
  s_maxArea : option Z;
  s_propertyTypes : option (list Js.jsstring);
  s_sortOrder : option Js.jsstring;
}.

Definition buildSoldSearchParams (options : SoldSearchOptions) : URLSearchParams :=
  let params : URLSearchParams := [] in
  let params := if_string (s_locationId options) "location_ids[]" (fun v => v) params in
  let params := if_number (s_minRooms options) "rooms_min" params in
  let params := if_number (s_maxRooms options) "rooms_max" params in
  let params := if_number (s_minPrice options) "price_min" params in
  let params := if_number (s_maxPrice options) "price_max" params in
  let params := if_number (s_minArea options) "living_area_min" params in
  let params := if_number (s_maxArea options) "living_area_max" params in
  let params :=
    match s_propertyTypes options with
    | Some types =>
      fold_left (fun ps t => append "item_types[]" (mapped PROPERTY_TYPES t) ps)
                types params
    | None => params
    end in
  let params := if_string (s_sortOrder options) "order" (mapped SORT_ORDERS) params in
  params.

Definition buildSoldSearchUrl (options : SoldSearchOptions) : Js.jsstring :=
  js "https://www.hemnet.se/salda/bostader?"
  ++ params_toString (buildSoldSearchParams options).

(** [{ locationId, ...options }] *)
Definition sold_with_locationId (l : option Js.jsstring) (o : SoldSearchOptions)
  : SoldSearchOptions :=
  {| s_locationId := l;
     s_minRooms := s_minRooms o; s_maxRooms := s_maxRooms o;
     s_minPrice := s_minPrice o; s_maxPrice := s_maxPrice o;
     s_minArea := s_minArea o; s_maxArea := s_maxArea o;
     s_propertyTypes := s_propertyTypes o; s_sortOrder := s_sortOrder o |}.

(** [$el.find(...)] and [$(...)] for a selector given as a test *)
Definition select_where (p : Dom.node -> bool) (doc : Dom.document)
  : list Dom.selected :=
  List.filter (fun e => p (fst e)) (Dom.elements doc).

Definition find_where (p : Dom.node -> bool) (n : Dom.node) : list Dom.selected :=
  List.filter (fun e => p (fst e)) (Dom.elements (Dom.contents n)).

(** [tag[attribute*="sub"]] *)
Definition attr_contains (tag attribute sub : string) (n : Dom.node) : bool :=
  Dom.matches (Dom.TagAttrContains tag attribute sub) n.

(** the five selectors of [soldSelectors], joined by commas *)
Definition sold_link (n : Dom.node) : bool :=
  attr_contains "a" "href" "/salda/lagenhet-" n
  || attr_contains "a" "href" "/salda/villa-" n
  || attr_contains "a" "href" "/salda/radhus-" n
  || attr_contains "a" "href" "/salda/fritidshus-" n
  || attr_contains "a" "href" "/salda/tomt-" n.

(** the five selectors of the agency logo *)
Definition agency_logo (n : Dom.node) : bool :=
  attr_contains "img" "alt" "Mäklar" n
  || attr_contains "img" "alt" "Fastighet" n
  || attr_contains "img" "alt" "byrå" n
  || attr_contains "img" "alt" "Bjurfors" n
  || attr_contains "img" "alt" "Notar" n.

Definition digits_spaces : Rx.rx := Rx.plus digit_or_space.

(** /Slutpris\s+([\d\s]+)\s*kr/i *)
Definition soldPrice_re : Rx.rx :=
  Rx.seq [Rx.chars_i "Slutpris"; Rx.plus Js.isSpace; Rx.Cap digits_spaces;
          Rx.Rep Js.isSpace; Rx.chars_i "kr"].

(** /([+\-±]\s*\d+(?:[,.]\d+)?)\s*%/ *)
Definition priceChange_re : Rx.rx :=
  Rx.seq [Rx.Cap (Rx.seq [Rx.Cls (Rx.one_of "+-±"); Rx.Rep Js.isSpace;
                          Rx.plus Js.isDigit;
                          Rx.Opt (Rx.seq [Rx.Cls (Rx.one_of ",.");
                                          Rx.plus Js.isDigit])]);
          Rx.Rep Js.isSpace; Rx.chars "%"].

(** /(\d+(?:[,.]\d+)?)\s*rum/ *)
Definition soldRooms_re : Rx.rx :=
  Rx.seq [Rx.Cap (Rx.seq [Rx.plus Js.isDigit;
                          Rx.Opt (Rx.seq [Rx.Cls (Rx.one_of ",.");
                                          Rx.plus Js.isDigit])]);
          Rx.Rep Js.isSpace; Rx.chars "rum"].

(** /^(\d+(?:[+,]\d+)?)\s*m²$/ *)
Definition areaOnly_re : Rx.rx :=
  Rx.seq [Rx.Cap (Rx.seq [Rx.plus Js.isDigit;
                          Rx.Opt (Rx.seq [Rx.Cls (Rx.one_of "+,");
                                          Rx.plus Js.isDigit])]);
          Rx.Rep Js.isSpace; Rx.chars "m²"; Rx.Eol].

(** /(\d+(?:\+\d+)?(?:,\d+)?)\s*m²(?!\s*Slutpris)/ *)
Definition areaFallback_re : Rx.rx :=
  Rx.seq [Rx.Cap (Rx.seq [Rx.plus Js.isDigit;
                          Rx.Opt (Rx.seq [Rx.chars "+"; Rx.plus Js.isDigit]);
                          Rx.Opt (Rx.seq [Rx.chars ","; Rx.plus Js.isDigit])]);
          Rx.Rep Js.isSpace; Rx.chars "m²";
          Rx.Not (Rx.seq [Rx.Rep Js.isSpace; Rx.chars "Slutpris"])].

(** /([\d\s]+)\s*kr\/m²/ *)
Definition soldPricePerSqm_re : Rx.rx :=
  Rx.seq [Rx.Cap digits_spaces; Rx.Rep Js.isSpace; Rx.chars "kr/m²"].

(** /([\d\s]+)\s*kr\/mån/ *)
Definition soldFee_re : Rx.rx :=
  Rx.seq [Rx.Cap digits_spaces; Rx.Rep Js.isSpace; Rx.chars "kr/mån"].

(** /Såld\s+(\d+\s+\w+\.?\s+\d{4})/ *)
Definition saleDate_re : Rx.rx :=
  Rx.seq [Rx.chars "Såld"; Rx.plus Js.isSpace;
          Rx.Cap (Rx.seq [Rx.plus Js.isDigit; Rx.plus Js.isSpace;
                          Rx.plus Jsx.isWord; Rx.Opt (Rx.chars ".");
                          Rx.plus Js.isSpace;
                          Rx.Cls Js.isDigit; Rx.Cls Js.isDigit;
                          Rx.Cls Js.isDigit; Rx.Cls Js.isDigit])].

(** [match ? `${match[1].replace(/\s/g, " ").trim()} unit` : ""] *)
Definition amount_with_unit (m : option Rx.found) (unit : string) : Js.jsstring :=
  match m with
  | Some f => Js.trim (Jsx.replace_spaces [32] (Rx.group1 f)) ++ js " " ++ js unit
  | None => []
  end.

(** the cascade that reads the property type off the href *)
Definition propertyType_of (href : Js.jsstring) : Js.jsstring :=
  if Js.includes href (js "/villa-") then js "villa"
  else if Js.includes href (js "/lagenhet-") then js "lägenhet"
  else if Js.includes href (js "/radhus-") then js "radhus"
  else if Js.includes href (js "/fritidshus-") then js "fritidshus"
  else if Js.includes href (js "/tomt-") then js "tomt"
  else [].

(** the loop over [$el.find("p")] that looks for a paragraph holding an
    area and nothing else *)
Fixpoint areaOnly_in (ps : list Dom.selected) : Js.jsstring :=
  match ps with
  | [] => []
  | pEl :: rest =>
    match Rx.at_start areaOnly_re (Js.trim (Dom.textContent (fst pEl))) with
    | Some areaOnly => fst areaOnly
    | None => areaOnly_in rest
    end
  end.

Definition sold_area_of (el : Dom.node) (allText : Js.jsstring) : Js.jsstring :=
  let area := areaOnly_in (Dom.find (Dom.Tag "p") el) in
  if Js.truthy_string area then area
  else
    match Rx.leftmost areaFallback_re allText with
    | Some areaFallback =>
      if negb (Js.includes (fst areaFallback) (js "kr")) then fst areaFallback
      else []
    | None => []
    end.

(** the body of the [.each] callback of [searchSoldHemnet] *)
Definition sold_listing_of (locationName : Js.jsstring) (el : Dom.node)
  : option SoldListing :=
  match Dom.attr "href" el with
  | Some href =>
    if negb (Js.truthy_string href) || negb (Js.includes href (js "/salda/"))
    then None
    else
      let allText := Dom.textContent el in
      let title := Js.trim (Dom.text (Dom.first (Dom.find (Dom.Tag "h2") el))) in
      let priceChangeMatch := Rx.leftmost priceChange_re allText in
      let roomsMatch := Rx.leftmost soldRooms_re allText in
      let agencyImg := Dom.first (find_where agency_logo el) in
      let dateMatch := Rx.leftmost saleDate_re allText in
      if Js.truthy_string title || Js.truthy_string href then
        Some {| sold_address := title;
                sold_location := locationName;
                sold_soldPrice :=
                  amount_with_unit (Rx.leftmost soldPrice_re allText) "kr";
                sold_priceChangePercent :=
                  match priceChangeMatch with
                  | Some m => Jsx.replace_spaces [] (Rx.group1 m) ++ js "%"
                  | None => []
                  end;
                sold_saleDate :=
                  match dateMatch with
                  | Some m => Js.trim (Rx.group1 m)
                  | None => []
                  end;
                sold_rooms :=
                  match roomsMatch with
                  | Some m => Rx.group1 m
                  | None => []
                  end;
                sold_area := sold_area_of el allText;
                sold_pricePerSqm :=
                  amount_with_unit (Rx.leftmost soldPricePerSqm_re allText) "kr/m²";
                sold_monthlyFee :=
                  amount_with_unit (Rx.leftmost soldFee_re allText) "kr/mån";
                sold_propertyType := propertyType_of href;
                sold_agency :=
                  match agencyImg with
                  | img :: _ => default [] (Dom.attr "alt" (fst img))
                  | [] => []
                  end;
                sold_url := if Js.startsWith href (js "http") then href
                            else js "https://www.hemnet.se" ++ href |}
      else None
  | None => None
  end.

Definition sold_anchors (doc : Dom.document) : list Dom.selected :=
  select_where sold_link doc.

Definition extractSoldListings (doc : Dom.document) (locationName : Js.jsstring)
  : list SoldListing :=
  omap (fun el => sold_listing_of locationName (fst el))
       (Dom.slice0 25 (sold_anchors doc)).

Definition searchSoldHemnet (location : option Js.jsstring)
  (options : SoldSearchOptions) : M (list SoldListing * Js.jsstring) :=
  let* resolved :=
    if truthy_opt location then
      let* locationResult := findLocationId (default [] location) in
      match locationResult with
      | None => throw (location_not_found (default [] location))
      | Some r => ret (Some (Js.ToString (id r)), name r)
      end
    else ret (None, js "Sverige") in
  let locationName := snd resolved in
  let searchUrl := buildSoldSearchUrl (sold_with_locationId (fst resolved) options) in
  let* html := fetchPage searchUrl in
  let* w := world in
  ret (extractSoldListings (cheerio_load w html) locationName, locationName).

(** ** Further fields of [getListingDetails] *)

(** the loop over [$("p")] that sets [description]: the first paragraph
    whose trimmed text is longer than 200 code units *)
Fixpoint description_in (ps : list Dom.selected) : Js.jsstring :=
  match ps with
  | [] => []
  | el :: rest =>
    let text := Js.trim (Dom.textContent (fst el)) in
    if (200 <? length text)%nat then text else description_in rest
  end.

Definition description_of (doc : Dom.document) : Js.jsstring :=
  description_in (Dom.select doc (Dom.Tag "p")).

(** [if (src && !imageUrls.includes(src) && imageUrls.length < 10)
     imageUrls.push(src)] *)
Definition push_image (imageUrls : list Js.jsstring) (src : option Js.jsstring)
  : list Js.jsstring :=
  match src with
  | Some v =>
    if Js.truthy_string v && negb (existsb (Js.eqb v) imageUrls)
       && (length imageUrls <? 10)%nat
    then imageUrls ++ [v] else imageUrls
  | None => imageUrls
  end.

Definition gallery_image (n : Dom.node) : bool :=
  attr_contains "img" "src" "bilder.hemnet.se" n
  || attr_contains "img" "src" "images.hemnet.se" n.

Definition imageUrls_of (doc : Dom.document) : list Js.jsstring :=
  let imageUrls :=
    fold_left (fun acc el => push_image acc (Dom.attr "src" (fst el)))
              (select_where gallery_image doc) [] in
  if (length imageUrls =? 0)%nat then
    fold_left (fun acc el => push_image acc (Dom.attr "data-src" (fst el)))
              (select_where (attr_contains "img" "data-src" "hemnet") doc)
              imageUrls
  else imageUrls.

(** ** The tool that lists the common locations *)

(** [name.charAt(0).toUpperCase() + name.slice(1)] *)
Definition capitalize (name : Js.jsstring) : Js.jsstring :=
  Jsx.toUpperCase (Jsx.charAt0 name) ++ Jsx.slice1 name.

(** [Object.entries(COMMON_LOCATIONS).filter(([key]) => !key.includes("-"))
     .map(([name, id]) => ({ name: ..., id }))]; the entries of the object
    literal come in the order they are written *)
Definition listed_locations : list (Js.jsstring * Js.jsstring) :=
  List.map (fun e => (capitalize (fst e), snd e))
    (List.filter (fun e => negb (Js.includes (fst e) (js "-")))
                 COMMON_LOCATIONS_entries).

(** ** [scripts/fetch-location-ids.ts] *)

Definition LOCATIONS_TO_VERIFY : list Js.jsstring :=
  List.map js
    ["Stockholm"; "Göteborg"; "Malmö"; "Uppsala"; "Upplands Väsby";
     "Sollentuna"; "Solna"; "Sundbyberg"; "Nacka"; "Huddinge"; "Järfälla";
     "Täby"; "Linköping"; "Örebro"; "Västerås"; "Helsingborg"; "Norrköping";
     "Jönköping"; "Lund"; "Vallentuna"; "Sigtuna"; "Danderyd"; "Lidingö";
     "Tyresö"; "Haninge"; "Botkyrka"; "Salem"; "Ekerö"; "Värmdö";
     "Österåker"; "Norrtälje"; "Södertälje"]%string.









(** the key under which [main] files a verified location *)
Definition script_key (location : Js.jsstring) : Js.jsstring :=
  Jsx.collapse_spaces (Js.toLowerCase location).

(** ** Definitions used to state the further properties *)

(** a sold-search filter read as a filter of the active search: the
    shared fields, and every other field absent *)
Definition sold_as_search (o : SoldSearchOptions) : SearchOptions :=
  {| locationId := s_locationId o;
     minRooms := s_minRooms o; maxRooms := s_maxRooms o;
     minPrice := s_minPrice o; maxPrice := s_maxPrice o;
     minArea := s_minArea o; maxArea := s_maxArea o; maxFee := None;
     propertyTypes := s_propertyTypes o; newConstruction := None;
     keywords := None; openHouse := None; hasBalcony := None;
     hasElevator := None; daysListed := None;
     sortOrder := s_sortOrder o |}.

(** the names the sold search can emit *)
Definition sold_parameter_names : list Js.jsstring :=
  List.map js
    ["location_ids[]"; "rooms_min"; "rooms_max"; "price_min"; "price_max";
     "living_area_min"; "living_area_max"; "item_types[]"; "order"]%string.

(** the pieces [buildSearchUrl] appends, one per field, in order *)
Definition search_pieces (o : SearchOptions) : list URLSearchParams :=
  [ if_string (locationId o) "location_ids[]" (fun v => v) [];
    if_number (minRooms o) "rooms_min" [];
    if_number (maxRooms o) "rooms_max" [];
    if_number (minPrice o) "price_min" [];
    if_number (maxPrice o) "price_max" [];
    if_number (minArea o) "living_area_min" [];
    if_number (maxArea o) "living_area_max" [];
    if_number (maxFee o) "fee_max" [];
    List.map (fun t => (js "item_types[]", mapped PROPERTY_TYPES t))
             (default [] (propertyTypes o));
    match newConstruction o with
    | Some v => [(js "new_construction", ncMap v)]
    | None => []
    end;
    if_string (keywords o) "keywords" (fun v => v) [];
    match openHouse o with
    | Some v => [(js "upcoming_open_house", openHouse_text v)]
    | None => []
    end;
    if_flag (hasBalcony o) "balcony" [];
    if_flag (hasElevator o) "elevator" [];
    match daysListed o with
    | Some n =>
      if Js.truthy_number n then
        [(js "published",
          match daysMap n with Some v => v | None => Js.String_of_number n end)]
      else []
    | None => []
    end;
    if_string (sortOrder o) "order" (mapped SORT_ORDERS) [] ].

(** how often a code unit occurs *)
Definition occurrences (u : N) (s : Js.jsstring) : nat :=
  length (List.filter (N.eqb u) s).



Definition not_configured : exn :=
  Error (js "BROWSER_RENDER_URL not configured. Set it as an environment variable.").

(** the POST that [fetchViaRenderer] sends for [url] under the settings *)
Definition render_request (s : Settings) (url : Js.jsstring) : RenderRequest :=
  {| endpoint := default [] (browserRenderUrl s);
     authorization :=
       if truthy_opt (browserRenderApiKey s)
       then Some (js "Bearer " ++ default [] (browserRenderApiKey s))
       else None;
     body_url := url;
     body_timeout := 10000 |}.

Definition no_json (url : Js.jsstring) : exn :=
  Error (js "Could not extract JSON from " ++ url).

(** the characters that delimit the parts of a URL: space, [#], [&], [+],
    [/], [=] and [?] *)
Definition url_delimiters : list N := [32; 35; 38; 43; 47; 61; 63].

(** a display amount: empty, or a digit, then digits and white space, then
    the unit *)
Definition amount_text (unit : string) (s : Js.jsstring) : Prop :=
  s = [] \/
  exists d body,
    s = d :: body ++ js unit
    /\ Js.isDigit d = true
    /\ forallb digit_or_space body = true.

(** an image URL the summary scraper accepts *)
Definition hemnet_image (candidate : Js.jsstring) : bool :=
  Js.startsWith candidate (js "http") && Js.includes candidate (js "hemnet").

(** the five property types the sold scraper reads off a URL *)
Definition sold_property_types : list Js.jsstring :=
  List.map js ["villa"; "lägenhet"; "radhus"; "fritidshus"; "tomt"]%string.

(** a text whose only white space is the plain space *)
Definition plain_spaces (s : Js.jsstring) : bool :=
  forallb (fun u => negb (Js.isSpace u) || (u =? 32)) s.

(** a text without white space *)
Definition no_spaces (s : Js.jsstring) : bool :=
  forallb (fun u => negb (Js.isSpace u)) s.

(** what the image list of a detail page keeps: at most ten entries, none
    twice, each with the property [P] *)
Definition image_list (P : list N -> Prop) (l : list (list N)) : Prop :=
  (length l <= 10)%nat /\ NoDup l /\ Forall P l.

(** ** Further sample inputs *)

(** a world whose direct fetch answers every request with [answer] *)
Definition direct_world (answer : DirectResponse) : World :=
  {| fetch_get := fun _ => Some answer;
     fetch_post := fetch_post challenge_world;
     JSON_parse := fun _ => None;
     cheerio_load := fun _ => [] |}.


(** a listing anchor whose image has a placeholder [src] and the real URL
    as the first entry of [srcset], with price, rooms, area and fee in
    elements of their own *)
Definition image_anchor_page : Dom.document :=
  [Dom.Element (js "a") [(js "href", js "https://www.hemnet.se/bostad/9")]
     [Dom.Element (js "img")
        [(js "src", js "data:image/gif;base64,R0lGOD");
         (js "srcset", js " https://bilder.hemnet.se/images/9.jpg 1x, https://bilder.hemnet.se/images/9b.jpg 2x")]
        [];
      Dom.Element (js "span") [] [Dom.Text (js "2 995 000 kr")];
      Dom.Element (js "span") [] [Dom.Text (js "3 rum")];
      Dom.Element (js "span") [] [Dom.Text (js "75 m²")];
      Dom.Element (js "span") [] [Dom.Text (js "4 100 kr/mån")]]].

(** the listing of [image_anchor_page] *)
Definition image_anchor_listing : Listing :=
  {| title := []; url := js "https://www.hemnet.se/bostad/9";
     price := js "2 995 000 kr"; rooms := js "3 rum"; area := js "75 m²";
     monthlyFee := js "4 100 kr/mån"; description := [];
     location := js "Sverige";
     imageUrl := js "https://bilder.hemnet.se/images/9.jpg" |}.

(** a sold listing whose amounts are written with no-break spaces *)
Definition sold_anchor_page : Dom.document :=
  [Dom.Element (js "a")
     [(js "href", js "/salda/lagenhet-3rum-sodermalm-stockholms-kommun-123")]
     [Dom.Element (js "h2") [] [Dom.Text (js " Hornsgatan 1 ")];
      Dom.Element (js "p") [] [Dom.Text (js "3 rum")];
      Dom.Element (js "p") [] [Dom.Text (js " 75 m² ")];
      Dom.Element (js "span") [] [Dom.Text (js "4 100 kr/mån")];
      Dom.Element (js "span") []
        [Dom.Text (js "Slutpris 5" ++ [160] ++ js "200" ++ [160] ++ js "000 kr")];
      Dom.Element (js "span") [] [Dom.Text (js "+ 12,5 %")];
      Dom.Element (js "span") [] [Dom.Text (js "69 333 kr/m²")];
      Dom.Element (js "img") [(js "alt", js "Svensk Fastighetsförmedling")] [];
      Dom.Element (js "span") [] [Dom.Text (js "Såld 12 okt. 2024")]]].

(** the listing of [sold_anchor_page] *)
Definition sold_anchor_listing : SoldListing :=
  {| sold_address := js "Hornsgatan 1";
     sold_location := js "Sverige";
     sold_soldPrice := js "5 200 000 kr";
     sold_priceChangePercent := js "+12,5%";
     sold_saleDate := js "12 okt. 2024";
     sold_rooms := js "3";
     sold_area := js "75 m²";
     sold_pricePerSqm := js "69 333 kr/m²";
     sold_monthlyFee := js "4 100 kr/mån";
     sold_propertyType := js "lägenhet";
     sold_agency := js "Svensk Fastighetsförmedling";
     sold_url := js "https://www.hemnet.se/salda/lagenhet-3rum-sodermalm-stockholms-kommun-123" |}.

(** a page on which the label Avgift occurs twice, the first time without
    a value after it *)
Definition two_labels_page : Dom.document :=
  [Dom.Element (js "dl") []
     [Dom.Element (js "dt") [] [Dom.Text (js "Avgift")];
      Dom.Element (js "dt") [] [Dom.Text (js "Avgift per månad")];
      Dom.Element (js "dd") [] [Dom.Text (js "4 100 kr/mån")]]].

(** a page with the notice of a removed listing *)
Definition removed_page : Js.jsstring :=
  js "<html><body><h1>Den här bostaden finns inte längre</h1></body></html>".

Definition removed_world : World := sample_world removed_page [] None.

(** a gallery with a repeated image and an image of another host *)
Definition gallery_images_page : Dom.document :=
  [Dom.Element (js "div") []
     [Dom.Element (js "img") [(js "src", js "https://bilder.hemnet.se/a.jpg")] [];
      Dom.Element (js "img") [(js "src", js "https://cdn.example.com/b.jpg")] [];
      Dom.Element (js "img") [(js "src", js "https://bilder.hemnet.se/a.jpg")] [];
      Dom.Element (js "img") [(js "src", js "https://images.hemnet.se/c.jpg")] []]].

(** * Properties *)

(** ** The model on concrete inputs *)

Example lit_utf8 : js "mån" = [109; 229; 110].
Proof. reflexivity. Qed.

Example trim_lowercase : Js.trim (Js.toLowerCase (js "  Upplands VÄSBY ")) = js "upplands väsby".
Proof. vm_compute. reflexivity. Qed.

Example price_re_skips_the_fee :
  whole_or_empty (Re.exec price_re (js "3 rum 75 m² 2 995 000 kr 4 100 kr/mån"))
  = js "2 995 000 kr".
Proof. vm_compute. reflexivity. Qed.

Example fee_re_on_one_text :
  whole_or_empty (Re.exec fee_re (js "Avgift 4 100 kr/mån")) = js "4 100 kr/mån".
Proof. vm_compute. reflexivity. Qed.

Example buildSearchUrl_no_options :
  buildSearchUrl no_options = js "https://www.hemnet.se/bostader?".
Proof. vm_compute. reflexivity. Qed.

Example buildSearchUrl_encodes_names :
  buildSearchUrl (with_locationId (Some (js "17744")) two_rooms_three_million)
  = js "https://www.hemnet.se/bostader?location_ids%5B%5D=17744&rooms_min=2&price_max=3000000".
Proof. vm_compute. reflexivity. Qed.

Example extractDetails_gallery_page :
  let d := extractDetails (js "<div>Budgivning med BankID</div>") gallery_page in
  d_imageCount d = 24%Z
  /\ d_hasFloorPlan d = true
  /\ d_hasBankIdBidding d = true
  /\ d_coordinates d = Some (js "59.3293", js "18.0686").
Proof. vm_compute. repeat split; reflexivity. Qed.

(** ** The location resolver *)

Lemma COMMON_LOCATIONS_values_truthy (k v : list N) :
  COMMON_LOCATIONS !! k = Some v -> Js.truthy_string v = true.
Proof.
  intros H. apply elem_of_list_to_map_2 in H. apply list_elem_of_In in H.
  assert (A : forallb (fun kv => Js.truthy_string (snd kv))
                      COMMON_LOCATIONS_entries = true) by (vm_compute; reflexivity).
  rewrite forallb_forall in A. exact (A (k, v) H).
Qed.

(** A name whose normalized form is a key of the table is answered from
    the table, and the trace of requests is left as it was. *)
Lemma findLocationId_static (location v : list N) w s t :
  COMMON_LOCATIONS !! Js.trim (Js.toLowerCase location) = Some v ->
  findLocationId location w s t
  = (Ok (Some {| id := Js.Str v; name := location; type := js "kommun" |}), t).
Proof.
  intros H. unfold findLocationId, Js.get. rewrite H.
  cbn [Js.truthy]. rewrite (COMMON_LOCATIONS_values_truthy _ _ H).
  reflexivity.
Qed.





(** ** The page fetcher *)

Lemma bind_Ok {A B} (m : M A) (k : A -> M B) w s t a t' :
  m w s t = (Ok a, t') -> bind m k w s t = k a w s t'.
Proof. intros H. unfold bind. now rewrite H. Qed.

Lemma bind_inv_Ok {A B} (m : M A) (k : A -> M B) w s t b t2 :
  bind m k w s t = (Ok b, t2) ->
  exists a t1, m w s t = (Ok a, t1) /\ k a w s t1 = (Ok b, t2).
Proof.
  unfold bind. destruct (m w s t) as [[a|e] t1]; intros H; [eauto|discriminate].
Qed.

(** C3: whenever the markup handed back by the rendering backend contains
    Verify you are human, fetchPage throws the bot-verification error,
    whatever else the markup holds; and a markup that fetchPage does
    return never contains that text. *)
Theorem fetchPage_bot_challenge (url : list N) w s t :
  (forall html t',
     fetchViaRenderer url w s t = (Ok html, t') ->
     Js.includes html (js "Verify you are human") = true ->
     fetchPage url w s t = (Throw bot_challenge, t'))
  /\ (forall html t',
        fetchPage url w s t = (Ok html, t') ->
        Js.includes html (js "Verify you are human") = false).
Proof.
  split.
  - intros html t' Hr Hi. unfold fetchPage. rewrite (bind_Ok _ _ _ _ _ _ _ Hr).
    now rewrite Hi.
  - intros html t' H. unfold fetchPage in H.
    apply bind_inv_Ok in H as (h & t1 & _ & H).
    destruct (Js.includes h (js "Verify you are human")) eqn:E.
    + discriminate.
    + unfold ret in H. now inversion H; subst.
Qed.

Lemma fetchPage_bot_challenge_witness :
  Js.includes challenge_page (js "Verify you are human") = true
  /\ fetchPage (js "https://www.hemnet.se/bostader?") challenge_world
       sample_settings []
     = (Throw bot_challenge,
        [POST {| endpoint := js "http://localhost:3000/render";
                 authorization := None;
                 body_url := js "https://www.hemnet.se/bostader?";
                 body_timeout := 10000 |}]).
Proof.
  split; [vm_compute; reflexivity|].
  apply (proj1 (fetchPage_bot_challenge (js "https://www.hemnet.se/bostader?")
                  challenge_world sample_settings [])
               challenge_page).
  - vm_compute. reflexivity.
  - vm_compute. reflexivity.
Defined.

(** ** The detail scraper *)

(** C9: a url that does not contain hemnet.se/bostad/ makes
    getListingDetails throw the invalid-URL error at once; the trace of
    requests is unchanged, so no page fetch and no request has been made. *)
Theorem getListingDetails_invalid_url (url : list N) w s t :
  Js.includes url (js "hemnet.se/bostad/") = false ->
  getListingDetails url w s t = (Throw invalid_url, t).
Proof.
  intros H. unfold getListingDetails. rewrite H. reflexivity.
Qed.

Lemma getListingDetails_invalid_url_witness :
  Js.includes (js "https://www.hemnet.se/salda/lagenhet-2rum") (js "hemnet.se/bostad/") = false
  /\ run (getListingDetails (js "https://www.hemnet.se/salda/lagenhet-2rum"))
         challenge_world sample_settings
     = (Throw invalid_url, []).
Proof.
  split; [vm_compute; reflexivity|].
  apply getListingDetails_invalid_url. vm_compute. reflexivity.
Defined.

(** ** The query builder *)

Lemma names_append name value (ps : URLSearchParams) :
  List.map fst (append name value ps) = List.map fst ps ++ [js name].
Proof. unfold append. now rewrite List.map_app. Qed.

Lemma names_if_number f name (ps : URLSearchParams) :
  List.map fst (if_number f name ps)
  = List.map fst ps ++ one_if (set_number f) name.
Proof.
  unfold if_number, set_number, one_if. destruct f as [n|].
  - destruct (Js.truthy_number n); [apply names_append|now rewrite app_nil_r].
  - now rewrite app_nil_r.
Qed.

Lemma names_if_string f name value (ps : URLSearchParams) :
  List.map fst (if_string f name value ps)
  = List.map fst ps ++ one_if (truthy_opt f) name.
Proof.
  unfold if_string, truthy_opt, one_if. destruct f as [v|].
  - destruct (Js.truthy_string v); [apply names_append|now rewrite app_nil_r].
  - now rewrite app_nil_r.
Qed.

Lemma names_if_flag f name (ps : URLSearchParams) :
  List.map fst (if_flag f name ps)
  = List.map fst ps ++ one_if (set_flag f) name.
Proof.
  unfold if_flag, set_flag, one_if. destruct f as [[|]|]; cbn [default];
    [apply names_append|now rewrite app_nil_r..].
Qed.

Lemma names_item_types (types : list (list N)) (ps : URLSearchParams) :
  List.map fst
    (fold_left (fun ps t => append "item_types[]" (mapped PROPERTY_TYPES t) ps)
               types ps)
  = List.map fst ps ++ repeat (js "item_types[]") (length types).
Proof.
  revert ps. induction types as [|t types IH]; intros ps.
  - cbn [fold_left length repeat]. now rewrite app_nil_r.
  - cbn [fold_left length repeat]. rewrite IH, names_append, <- app_assoc.
    reflexivity.
Qed.

Lemma one_if_in_table b name :
  js name ∈ parameter_names -> Forall (fun n => n ∈ parameter_names) (one_if b name).
Proof.
  intros H. destruct b; unfold one_if; [constructor; [exact H|]|]; constructor.
Qed.

Lemma Forall_repeat {A} (P : A -> Prop) x n : P x -> Forall P (repeat x n).
Proof. intros H. induction n; cbn [repeat]; constructor; auto. Qed.

(** the names of the parameters, in the order they are appended *)
Lemma buildSearchParams_names (o : SearchOptions) :
  List.map fst (buildSearchParams o) = names_of_set_fields o.
Proof.
  unfold buildSearchParams, names_of_set_fields.
  rewrite names_if_string.
  assert (E1 : forall ps,
    List.map fst
      match daysListed o with
      | Some n =>
        if Js.truthy_number n then
          append "published"
            match daysMap n with Some v => v | None => Js.String_of_number n end ps
        else ps
      | None => ps
      end = List.map fst ps ++ one_if (set_number (daysListed o)) "published").
  { intros ps. unfold set_number, one_if. destruct (daysListed o) as [n|].
    - destruct (Js.truthy_number n); [apply names_append|now rewrite app_nil_r].
    - now rewrite app_nil_r. }
  rewrite E1, !names_if_flag.
  assert (E2 : forall ps,
    List.map fst
      match openHouse o with
      | Some v => append "upcoming_open_house" (openHouse_text v) ps
      | None => ps
      end = List.map fst ps ++ one_if (present (openHouse o)) "upcoming_open_house").
  { intros ps. destruct (openHouse o); cbn [present one_if];
      [apply names_append|now rewrite app_nil_r]. }
  rewrite E2, names_if_string.
  assert (E3 : forall ps,
    List.map fst
      match newConstruction o with
      | Some v => append "new_construction" (ncMap v) ps
      | None => ps
      end = List.map fst ps ++ one_if (present (newConstruction o)) "new_construction").
  { intros ps. destruct (newConstruction o); cbn [present one_if];
      [apply names_append|now rewrite app_nil_r]. }
  rewrite E3.
  assert (E4 : forall ps,
    List.map fst
      match propertyTypes o with
      | Some types =>
        fold_left (fun ps t => append "item_types[]" (mapped PROPERTY_TYPES t) ps)
                  types ps
      | None => ps
      end = List.map fst ps
            ++ repeat (js "item_types[]") (length (default [] (propertyTypes o)))).
  { intros ps. destruct (propertyTypes o) as [types|]; cbn [default].
    - apply names_item_types.
    - cbn. now rewrite app_nil_r. }
  rewrite E4, !names_if_number, names_if_string.
  cbn [List.map app]. rewrite <- !app_assoc. reflexivity.
Qed.

Lemma names_of_set_fields_in_table (o : SearchOptions) :
  Forall (fun n => n ∈ parameter_names) (names_of_set_fields o).
Proof.
  unfold names_of_set_fields.
  repeat (apply Forall_app; split);
    first [ apply one_if_in_table | apply Forall_repeat ];
    apply list_elem_of_In; vm_compute; tauto.
Qed.

(** C1 (as the code has it): for every filter, every parameter name that
    buildSearchUrl emits belongs to the fixed table of sixteen names, and
    the names emitted are exactly, in this order, one per field that is
    set, that is present with a truthy value (a number other than 0, a
    string other than the empty one, the flag true, any enum value), and
    one per element of propertyTypes; a field that is absent, or present
    with the value 0, the empty string or false, contributes none. *)
Theorem buildSearchUrl_parameters (o : SearchOptions) :
  Forall (fun n => n ∈ parameter_names) (List.map fst (buildSearchParams o))
  /\ List.map fst (buildSearchParams o) = names_of_set_fields o
  /\ buildSearchUrl o
     = js "https://www.hemnet.se/bostader?" ++ params_toString (buildSearchParams o).
Proof.
  split; [|split].
  - rewrite buildSearchParams_names. apply names_of_set_fields_in_table.
  - apply buildSearchParams_names.
  - reflexivity.
Qed.

(** C1 fails as stated: in the filter { maxFee: 0, hasBalcony: false }
    two fields are present, so two parameters (fee_max and balcony) are
    predicted, and buildSearchUrl emits none. *)
Lemma buildSearchUrl_present_field_without_parameter :
  maxFee no_fee_no_balcony = Some 0%Z
  /\ hasBalcony no_fee_no_balcony = Some false
  /\ names_of_present_fields no_fee_no_balcony = [js "fee_max"; js "balcony"]
  /\ buildSearchParams no_fee_no_balcony = []
  /\ List.map fst (buildSearchParams no_fee_no_balcony)
     <> names_of_present_fields no_fee_no_balcony.
Proof.
  split; [reflexivity|]. split; [reflexivity|].
  split; [vm_compute; reflexivity|]. split; [vm_compute; reflexivity|].
  vm_compute. discriminate.
Qed.


(** *** Requests sent by the fetchers *)

Lemma fetchViaRenderer_trace (url : list N) w s t :
  exists extra,
    snd (fetchViaRenderer url w s t) = t ++ extra /\ at_most_one_render url extra.
Proof.
  unfold fetchViaRenderer, bind, settings, fetch_render, of_option, throw, ret,
    at_most_one_render.
  repeat case_match; simplify_eq; cbn [snd];
    first [ exists []; split; [symmetry; apply app_nil_r | now left]
          | eexists; split; [reflexivity | right; eexists; split; reflexivity] ].
Qed.

Lemma fetchPage_trace (url : list N) w s t :
  exists extra,
    snd (fetchPage url w s t) = t ++ extra /\ at_most_one_render url extra.
Proof.
  destruct (fetchViaRenderer_trace url w s t) as (extra & E & H).
  exists extra. split; [|exact H].
  unfold fetchPage, bind, throw, ret.
  destruct (fetchViaRenderer url w s t) as [[html|e] t'] eqn:R; cbn [snd] in *;
    [destruct (Js.includes html _)|]; exact E.
Qed.
(** C7: for the filter { minRooms: 2, maxPrice: 3000000 } with no
    location, the query string is exactly rooms_min=2&price_max=3000000,
    no parameter is named location_ids[], and the only request a search
    with this filter can send is the one that asks the renderer for that
    URL. *)
Theorem searchHemnet_two_rooms_three_million :
  params_toString (buildSearchParams (with_locationId None two_rooms_three_million))
  = js "rooms_min=2&price_max=3000000"
  /\ buildSearchUrl (with_locationId None two_rooms_three_million)
     = js "https://www.hemnet.se/bostader?rooms_min=2&price_max=3000000"
  /\ ~ In (js "location_ids[]")
          (List.map fst (buildSearchParams (with_locationId None two_rooms_three_million)))
  /\ forall w s,
       Forall (fun r => exists q, r = POST q /\
                 body_url q = js "https://www.hemnet.se/bostader?rooms_min=2&price_max=3000000")
              (snd (run (searchHemnet None two_rooms_three_million) w s)).
Proof.
  split; [vm_compute; reflexivity|].
  split; [vm_compute; reflexivity|].
  split.
  - intros H. vm_compute in H.
    destruct H as [H|[H|[]]]; discriminate.
  - intros w s. unfold run, searchHemnet. cbn [truthy_opt].
    rewrite (bind_Ok _ _ _ _ _ _ _ (eq_refl : ret _ w s [] = _)). cbn [fst snd].
    replace (buildSearchUrl (with_locationId None two_rooms_three_million))
      with (js "https://www.hemnet.se/bostader?rooms_min=2&price_max=3000000")
      by (vm_compute; reflexivity).
    set (u := js "https://www.hemnet.se/bostader?rooms_min=2&price_max=3000000").
    destruct (fetchPage_trace u w s []) as (extra & E & H).
    unfold bind, world, ret.
    destruct (fetchPage u w s []) as [[html|e] t'] eqn:R; cbn [snd] in *;
      subst t'; cbn [app]; (destruct H as [->|(q & -> & Hq)];
        [constructor | repeat constructor; eauto]).
Qed.








(** a name with a lone surrogate: encodeURIComponent throws inside the
    try block, before any request is sent *)
Lemma findLocationId_lone_surrogate (location : list N) w s t :
  Js.get COMMON_LOCATIONS (Js.trim (Js.toLowerCase location)) = Js.Undefined ->
  Js.encodeURIComponent location = None ->
  findLocationId location w s t = (Ok None, t).
Proof.
  intros Hm He. unfold findLocationId. rewrite Hm. cbn [Js.truthy].
  unfold catch, bind, of_option. rewrite He. reflexivity.
Qed.


(** A name that is not in the table but names a member inherited from
    Object.prototype takes the branch of the table: the id is that
    member, and no request is sent. *)
Example findLocationId_inherited_member :
  COMMON_LOCATIONS !! Js.trim (Js.toLowerCase (js "Constructor")) = None
  /\ run (findLocationId (js "Constructor")) kiruna_world sample_settings
     = (Ok (Some {| id := Js.Builtin (js "constructor"); name := js "Constructor";
                    type := js "kommun" |}), []).
Proof. split; vm_compute; reflexivity. Qed.

(** ** The summary scraper *)

Lemma includes_nil_false (sub : list N) :
  sub <> [] -> Js.includes [] sub = false.
Proof. destruct sub; [congruence|reflexivity]. Qed.

Lemma includes_truthy (s sub : list N) :
  sub <> [] -> Js.includes s sub = true -> Js.truthy_string s = true.
Proof.
  intros Hs H. destruct s; [|reflexivity].
  rewrite (includes_nil_false _ Hs) in H. discriminate.
Qed.

(** every selected anchor yields a listing *)
Lemma listing_of_anchor (doc : Dom.document) locationName (a : Dom.selected) :
  a ∈ listing_anchors doc ->
  exists l, listing_of locationName (fst a) = Some l /\ url l = listing_url (fst a).
Proof.
  unfold listing_anchors, Dom.select. intros H.
  apply list_elem_of_In, filter_In in H as [_ H].
  cbn [Dom.matches] in H. apply andb_true_iff in H as [_ H].
  unfold listing_of, listing_url.
  destruct (Dom.attr "href" (fst a)) as [href|]; [|discriminate].
  assert (T : Js.truthy_string href = true).
  { apply (includes_truthy _ (js "/bostad/")); [|exact H].
    vm_compute. discriminate. }
  rewrite T, H. cbn [negb orb]. rewrite orb_true_r.
  eexists. split; reflexivity.
Qed.

Lemma elem_of_firstn {A} (x : A) n (l : list A) : x ∈ firstn n l -> x ∈ l.
Proof.
  revert l. induction n as [|n IH]; intros [|y l] H; cbn in H;
    try (now inversion H).
  inversion H; subst; [left|right; now apply IH].
Qed.

Lemma Forall2_map_eq {A B C} (f : A -> C) (g : B -> C) (l : list A) (k : list B) :
  Forall2 (fun a b => g b = f a) l k -> List.map g k = List.map f l.
Proof.
  induction 1 as [|a b l k H _ IH]; cbn [List.map]; [reflexivity|].
  now rewrite H, IH.
Qed.

(** a search without a location: the page of the search URL is fetched
    and its listings are extracted, under the name Sverige *)
Lemma searchHemnet_nationwide (options : SearchOptions) (html : list N) w s t t' :
  fetchPage (buildSearchUrl (with_locationId None options)) w s t = (Ok html, t') ->
  searchHemnet None options w s t
  = (Ok (extractListings (cheerio_load w html) (js "Sverige"), js "Sverige"), t').
Proof.
  intros H. unfold searchHemnet. cbn [truthy_opt].
  rewrite (bind_Ok _ _ _ _ _ _ _ (eq_refl : ret (None, js "Sverige") w s t = _)).
  cbn [fst snd]. rewrite (bind_Ok _ _ _ _ _ _ _ H). reflexivity.
Qed.

(** C4: when the markup holds at least 25 anchors whose href contains
    /bostad/ (30, say), the summary extraction of searchHemnet returns
    exactly 25 records, and they are the records of the first 25 such
    anchors in document order: the k-th record is the one built from the
    k-th anchor and carries its URL. *)
Theorem extractListings_cap_25 (w : World) (html locationName : list N) :
  (25 <= length (listing_anchors (cheerio_load w html)))%nat ->
  length (extractListings (cheerio_load w html) locationName) = 25%nat
  /\ Forall2 (fun a l => listing_of locationName (fst a) = Some l)
             (firstn 25 (listing_anchors (cheerio_load w html)))
             (extractListings (cheerio_load w html) locationName)
  /\ List.map url (extractListings (cheerio_load w html) locationName)
     = List.map (fun a => listing_url (fst a))
                (firstn 25 (listing_anchors (cheerio_load w html)))
  /\ forall options s t t',
       fetchPage (buildSearchUrl (with_locationId None options)) w s t = (Ok html, t') ->
       exists listings,
         searchHemnet None options w s t = (Ok (listings, js "Sverige"), t')
         /\ length listings = 25%nat.
Proof.
  intros Hn. set (doc := cheerio_load w html) in *.
  assert (F : forall locationName,
              Forall2 (fun a l => listing_of locationName (fst a) = Some l
                                  /\ url l = listing_url (fst a))
                (firstn 25 (listing_anchors doc))
                (extractListings doc locationName)).
  { clear locationName. intros locationName. unfold extractListings, Dom.slice0.
    assert (S : forall a, a ∈ firstn 25 (listing_anchors doc) ->
                  exists l, listing_of locationName (fst a) = Some l
                            /\ url l = listing_url (fst a)).
    { intros a Ha. apply (listing_of_anchor doc). eapply elem_of_firstn, Ha. }
    revert S. generalize (firstn 25 (listing_anchors doc)).
    induction l as [|a l IH]; intros S; cbn [omap list_omap].
    - constructor.
    - destruct (S a) as (r & Hr & Hu); [left|]. rewrite Hr.
      constructor; [now split|]. apply IH. intros b Hb. apply S. now right. }
  assert (L : forall name, length (extractListings doc name) = 25%nat).
  { intros name. pose proof (F name) as Fn.
    apply Forall2_length in Fn. rewrite <- Fn, length_firstn. lia. }
  split; [apply L|]. split; [|split].
  - eapply Forall2_impl; [exact (F locationName)|]. now intros a l [H _].
  - apply Forall2_map_eq. eapply Forall2_impl; [exact (F locationName)|].
    now intros a l [_ H].
  - intros options s t t' Hf. eexists. split; [|apply (L (js "Sverige"))].
    apply searchHemnet_nationwide, Hf.
Qed.

Lemma extractListings_cap_25_witness :
  length (listing_anchors thirty_anchors) = 30%nat
  /\ length (extractListings
               (cheerio_load thirty_anchors_world thirty_anchors_markup) (js "Sverige")) = 25%nat
  /\ List.map url (extractListings
               (cheerio_load thirty_anchors_world thirty_anchors_markup) (js "Sverige"))
     = List.map (fun k => js "https://www.hemnet.se/bostad/" ++ Js.String_of_number (Z.of_nat k))
                (seq 1 25).
Proof.
  split; [vm_compute; reflexivity|].
  assert (H : (25 <= length (listing_anchors
                 (cheerio_load thirty_anchors_world thirty_anchors_markup)))%nat)
    by (vm_compute; lia).
  destruct (extractListings_cap_25 thirty_anchors_world thirty_anchors_markup
              (js "Sverige") H) as (L & _ & U & _).
  split; [exact L|]. rewrite U. vm_compute. reflexivity.
Defined.

(** *** What a match of a pattern looks like *)

Lemma push_Some u r ms :
  Re.push u r = Some ms ->
  exists m ms', r = Some (m :: ms') /\ ms = (u :: m) :: ms'.
Proof.
  unfold Re.push. destruct r as [[|m ms']|]; intros H; try discriminate.
  inversion H. eauto.
Qed.

Lemma skip_Some r ms :
  Re.skip r = Some ms -> exists ms', r = Some ms' /\ ms = [] :: ms'.
Proof.
  unfold Re.skip. destruct r as [ms'|]; intros H; try discriminate.
  inversion H. eauto.
Qed.

(** a match at the head of [s]: every atom matched a piece it accepts,
    and the pieces, put together, are a prefix of [s] *)
Lemma match_here_sound (r : Re.regex) :
  forall s ms,
    Re.match_here r s = Some ms ->
    Forall2 atom_matches r ms /\ exists tail, s = concat ms ++ tail.
Proof.
  induction r as [|a r IH]; intros s ms H.
  - cbn in H. inversion H. split; [constructor|]. now exists s.
  - destruct a as [p|p|p|l|]; cbn [Re.match_here] in H.
    + destruct s as [|u s']; [discriminate|].
      destruct (p u) eqn:P; [|discriminate].
      destruct (Re.match_here r s') as [ms'|] eqn:E; [|discriminate].
      inversion H; subst. destruct (IH _ _ E) as (F & tail & ->).
      split; [constructor; [exists u; now split|exact F]|].
      now exists tail.
    + revert ms H. induction s as [|u s' IHs]; intros ms H.
      * apply skip_Some in H as (ms' & E & ->).
        destruct (IH _ _ E) as (F & tail & T).
        split; [constructor; [reflexivity|exact F]|]. now exists tail.
      * destruct (p u) eqn:P.
        -- match type of H with
           | match Re.push u ?g with _ => _ end = _ => destruct (Re.push u g) as [ms1|] eqn:G
           end.
           ++ inversion H; subst. apply push_Some in G as (m & ms' & G & ->).
              destruct (IHs _ G) as (F & tail & T).
              inversion F as [|? ? ? ? Fm Fr]; subst.
              split; [constructor; [cbn in *; now rewrite P|exact Fr]|].
              exists tail. reflexivity.
           ++ apply skip_Some in H as (ms' & E & ->).
              destruct (IH _ _ E) as (F & tail & T).
              split; [constructor; [reflexivity|exact F]|]. now exists tail.
        -- apply skip_Some in H as (ms' & E & ->).
           destruct (IH _ _ E) as (F & tail & T).
           split; [constructor; [reflexivity|exact F]|]. now exists tail.
    + revert ms H. induction s as [|u s' IHs]; intros ms H.
      * destruct (Re.skip (Re.match_here r [])) as [ms1|] eqn:G; [|discriminate].
        inversion H; subst. apply skip_Some in G as (ms' & E & ->).
        destruct (IH _ _ E) as (F & tail & T).
        split; [constructor; [reflexivity|exact F]|]. now exists tail.
      * destruct (Re.skip (Re.match_here r (u :: s'))) as [ms1|] eqn:G.
        -- inversion H; subst. apply skip_Some in G as (ms' & E & ->).
           destruct (IH _ _ E) as (F & tail & T).
           split; [constructor; [reflexivity|exact F]|]. now exists tail.
        -- destruct (p u) eqn:P; [|discriminate].
           apply push_Some in H as (m & ms' & G' & ->).
           destruct (IHs _ G') as (F & tail & T).
           inversion F as [|? ? ? ? Fm Fr]; subst.
           split; [constructor; [cbn in *; now rewrite P|exact Fr]|].
           exists tail. reflexivity.
    + destruct (Js.startsWith s l); [discriminate|].
      apply skip_Some in H as (ms' & E & ->).
      destruct (IH _ _ E) as (F & tail & T).
      split; [constructor; [reflexivity|exact F]|]. now exists tail.
    + destruct s; [|discriminate].
      apply skip_Some in H as (ms' & E & ->).
      destruct (IH _ _ E) as (F & tail & T).
      split; [constructor; [reflexivity|exact F]|]. now exists tail.
Qed.

(** the leftmost match lies somewhere in [s] *)
Lemma exec_sound (r : Re.regex) (s : list N) ms :
  Re.exec r s = Some ms ->
  Forall2 atom_matches r ms /\ exists before tail, s = before ++ concat ms ++ tail.
Proof.
  induction s as [|u s IH]; cbn [Re.exec]; intros H.
  - destruct (Re.match_here r []) as [ms'|] eqn:E; [|discriminate].
    inversion H; subst. destruct (match_here_sound _ _ _ E) as (F & tail & T).
    split; [exact F|]. now exists [], tail.
  - destruct (Re.match_here r (u :: s)) as [ms'|] eqn:E.
    + inversion H; subst. destruct (match_here_sound _ _ _ E) as (F & tail & T).
      split; [exact F|]. now exists [], tail.
    + destruct (IH H) as (F & before & tail & T).
      split; [exact F|]. exists (u :: before), tail. cbn. now rewrite T.
Qed.

Lemma startsWith_app (sub tail : list N) : Js.startsWith (sub ++ tail) sub = true.
Proof. induction sub as [|u sub IH]; cbn; [reflexivity|]. now rewrite N.eqb_refl. Qed.

Lemma includes_app (before sub tail : list N) :
  Js.includes (before ++ sub ++ tail) sub = true.
Proof.
  induction before as [|u before IH].
  - cbn [app]. destruct (sub ++ tail) eqn:E; cbn [Js.includes]; rewrite <- E;
      now rewrite startsWith_app.
  - cbn [app Js.includes]. rewrite IH. apply orb_true_r.
Qed.

(** a literal matches itself only *)
Lemma str_matches (l : list N) ms :
  Forall2 atom_matches (List.map (fun u => Re.One (N.eqb u)) l) ms ->
  concat ms = l.
Proof.
  revert ms. induction l as [|u l IH]; intros ms F; cbn [List.map] in F.
  - apply Forall2_nil_inv_l in F as ->. reflexivity.
  - apply Forall2_cons_inv_l in F as (m & ms' & (v & -> & E) & F & ->).
    apply N.eqb_eq in E as <-. cbn [concat app]. now rewrite (IH _ F).
Qed.







(** ** The detail scraper: fields read by term, and the other defaults *)


Lemma term_fields_read (html : list N) (doc : Dom.document) term field :
  (term, field) ∈ term_fields ->
  field (extractDetails html doc) = getDefinitionByTerm doc term.
Proof.
  intros H. apply list_elem_of_In in H. unfold term_fields in H. cbn [In] in H.
  repeat (destruct H as [H|H]; [inversion H; subst; reflexivity|]).
  destruct H.
Qed.





(** * Further properties *)

(** ** The query builders *)

Lemma if_number_app f name (ps : URLSearchParams) :
  if_number f name ps = ps ++ if_number f name [].
Proof.
  unfold if_number, append. destruct f as [n|]; [destruct (Js.truthy_number n)|];
    cbn [app]; now rewrite ?app_nil_r.
Qed.

Lemma if_string_app f name value (ps : URLSearchParams) :
  if_string f name value ps = ps ++ if_string f name value [].
Proof.
  unfold if_string, append. destruct f as [v|]; [destruct (Js.truthy_string v)|];
    cbn [app]; now rewrite ?app_nil_r.
Qed.

Lemma if_flag_app f name (ps : URLSearchParams) :
  if_flag f name ps = ps ++ if_flag f name [].
Proof.
  unfold if_flag, append. destruct f as [[|]|]; cbn [app]; now rewrite ?app_nil_r.
Qed.

Lemma item_types_app (types : list (list N)) (ps : URLSearchParams) :
  fold_left (fun ps t => append "item_types[]" (mapped PROPERTY_TYPES t) ps) types ps
  = ps ++ List.map (fun t => (js "item_types[]", mapped PROPERTY_TYPES t)) types.
Proof.
  revert ps. induction types as [|t types IH]; intros ps; cbn [fold_left List.map].
  - now rewrite app_nil_r.
  - rewrite IH. unfold append. now rewrite <- app_assoc.
Qed.

(** [buildSearchUrl] appends one piece per field, in the order of the
    fields *)
Lemma buildSearchParams_pieces (o : SearchOptions) :
  buildSearchParams o = concat (search_pieces o).
Proof.
  unfold buildSearchParams, search_pieces. cbv zeta.
  rewrite (if_string_app (sortOrder o)).
  match goal with
  | |- ?x ++ _ = _ =>
    assert (E : x = concat (firstn 15 (search_pieces o))); [|rewrite E]
  end.
  2:{ unfold search_pieces. cbn [firstn concat app]. rewrite <- !app_assoc.
      cbn [app]. rewrite !app_nil_r. reflexivity. }
  unfold search_pieces. cbn [firstn concat].
  destruct (daysListed o) as [n|]; [destruct (Js.truthy_number n)|];
    unfold append; rewrite ?app_nil_r;
    rewrite (if_flag_app (hasElevator o)), (if_flag_app (hasBalcony o));
    (destruct (openHouse o) as [oh|]; unfold append; rewrite ?app_nil_r);
    rewrite (if_string_app (keywords o));
    (destruct (newConstruction o) as [nc|]; unfold append; rewrite ?app_nil_r);
    (destruct (propertyTypes o) as [types|]; cbn [default List.map];
       rewrite ?item_types_app, ?app_nil_r);
    rewrite (if_number_app (maxFee o)), (if_number_app (maxArea o)),
      (if_number_app (minArea o)), (if_number_app (maxPrice o)),
      (if_number_app (minPrice o)), (if_number_app (maxRooms o)),
      (if_number_app (minRooms o));
    rewrite <- ?app_assoc; cbn [app]; rewrite ?app_nil_r; reflexivity.
Qed.

(** X1: the sold search builds exactly the parameters the active search
    builds from the same shared fields; only the path of the URL differs. *)
Theorem buildSoldSearchUrl_agrees_with_buildSearchUrl (o : SoldSearchOptions) :
  buildSoldSearchParams o = buildSearchParams (sold_as_search o)
  /\ buildSoldSearchUrl o
     = js "https://www.hemnet.se/salda/bostader?"
       ++ params_toString (buildSearchParams (sold_as_search o)).
Proof. split; reflexivity. Qed.

(** X2: the sold search emits only the nine names it shares with the
    active search: never fee_max, new_construction, keywords,
    upcoming_open_house, balcony, elevator or published. *)
Theorem buildSoldSearchUrl_names (o : SoldSearchOptions) :
  Forall (fun n => n ∈ sold_parameter_names)
         (List.map fst (buildSoldSearchParams o)).
Proof.
  change (buildSoldSearchParams o) with (buildSearchParams (sold_as_search o)).
  rewrite buildSearchParams_names. unfold names_of_set_fields, sold_as_search.
  cbn [locationId minRooms maxRooms minPrice maxPrice minArea maxArea maxFee
       propertyTypes newConstruction keywords openHouse hasBalcony hasElevator
       daysListed sortOrder set_number set_flag present truthy_opt default].
  assert (T : forall b name, js name ∈ sold_parameter_names ->
            Forall (fun n => n ∈ sold_parameter_names) (one_if b name)).
  { intros b name H. destruct b; unfold one_if; [constructor; [exact H|]|];
      constructor. }
  repeat (apply Forall_app; split);
    first [ apply Forall_nil_2
          | apply T; apply list_elem_of_In; vm_compute; tauto
          | apply Forall_repeat; apply list_elem_of_In; vm_compute; tauto ].
Qed.

(** *** The query string *)

Lemma occurrences_app u (a b : list N) :
  occurrences u (a ++ b) = (occurrences u a + occurrences u b)%nat.
Proof. unfold occurrences. now rewrite List.filter_app, List.length_app. Qed.

Lemma occurrences_concat_0 u (l : list (list N)) :
  Forall (fun s => occurrences u s = 0%nat) l -> occurrences u (concat l) = 0%nat.
Proof.
  induction 1 as [|s l H _ IH]; cbn [concat]; [reflexivity|].
  now rewrite occurrences_app, H, IH.
Qed.

Lemma hex_digit_not u n :
  (u = 38 \/ u = 61) -> (u =? Js.hex_digit n) = false.
Proof.
  intros H. unfold Js.hex_digit. apply N.eqb_neq.
  destruct (n <? 10) eqn:E; [apply N.ltb_lt in E|apply N.ltb_ge in E]; lia.
Qed.

(** the encoding of a byte never holds [&] or [=] *)
Lemma form_byte_clean u b :
  (u = 38 \/ u = 61) -> occurrences u (Js.form_byte b) = 0%nat.
Proof.
  intros H. unfold Js.form_byte.
  destruct (Js.isAlnum b || Js.in_lit "*-._" b) eqn:A.
  - unfold occurrences. cbn [List.filter]. destruct (u =? b) eqn:E; [|reflexivity].
    apply N.eqb_eq in E. subst b. destruct H as [->| ->]; vm_compute in A; discriminate.
  - destruct (b =? 32).
    + destruct H as [->| ->]; reflexivity.
    + unfold Js.percent, occurrences. cbn [List.filter].
      rewrite !(hex_digit_not u) by exact H.
      destruct H as [->| ->]; reflexivity.
Qed.

Lemma form_encode_clean u (s : list N) :
  (u = 38 \/ u = 61) -> occurrences u (Js.form_encode s) = 0%nat.
Proof.
  intros H. unfold Js.form_encode. apply occurrences_concat_0.
  apply List.Forall_forall. intros x Hx. apply in_map_iff in Hx as (cp & <- & _).
  apply occurrences_concat_0. apply List.Forall_forall. intros y Hy.
  apply in_map_iff in Hy as (b & <- & _). now apply form_byte_clean.
Qed.

Lemma pair_text_count (p : list N * list N) :
  occurrences 61 (Js.form_encode (fst p) ++ js "=" ++ Js.form_encode (snd p)) = 1%nat
  /\ occurrences 38 (Js.form_encode (fst p) ++ js "=" ++ Js.form_encode (snd p)) = 0%nat.
Proof.
  rewrite !occurrences_app, !form_encode_clean by auto. split; reflexivity.
Qed.

Lemma joined_count (texts : list (list N)) :
  Forall (fun x => occurrences 61 x = 1%nat /\ occurrences 38 x = 0%nat) texts ->
  occurrences 61 (concat (List.map (fun y => js "&" ++ y) texts)) = length texts
  /\ occurrences 38 (concat (List.map (fun y => js "&" ++ y) texts)) = length texts.
Proof.
  induction 1 as [|x texts [H1 H2] _ [IH1 IH2]]; [split; reflexivity|].
  cbn [List.map concat length]. rewrite !occurrences_app, H1, H2, IH1, IH2.
  split; reflexivity.
Qed.

Lemma params_toString_count (ps : URLSearchParams) :
  occurrences 61 (params_toString ps) = length ps
  /\ occurrences 38 (params_toString ps) = pred (length ps).
Proof.
  unfold params_toString.
  assert (F : Forall (fun x => occurrences 61 x = 1%nat /\ occurrences 38 x = 0%nat)
                (List.map (fun p => Js.form_encode (fst p) ++ js "="
                                    ++ Js.form_encode (snd p)) ps)).
  { apply List.Forall_forall. intros x Hx. apply in_map_iff in Hx as (p & <- & _).
    apply pair_text_count. }
  rewrite <- (List.length_map (fun p => Js.form_encode (fst p) ++ js "="
                                      ++ Js.form_encode (snd p)) ps).
  destruct F as [|x texts [H1 H2] F]; [split; reflexivity|].
  cbn [length pred]. rewrite !(occurrences_app _ x), H1, H2.
  destruct (joined_count _ F) as [-> ->]. split; reflexivity.
Qed.

(** X3: whatever the strings of the filter hold, the URL has one [=] per
    parameter and one [&] between two parameters: a keyword or a location
    id cannot add or split a parameter. The same holds for the sold
    search. *)
Theorem buildSearchUrl_delimiters (o : SearchOptions) (so : SoldSearchOptions) :
  occurrences 61 (buildSearchUrl o) = length (buildSearchParams o)
  /\ occurrences 38 (buildSearchUrl o) = pred (length (buildSearchParams o))
  /\ occurrences 61 (buildSoldSearchUrl so) = length (buildSoldSearchParams so)
  /\ occurrences 38 (buildSoldSearchUrl so) = pred (length (buildSoldSearchParams so)).
Proof.
  unfold buildSearchUrl, buildSoldSearchUrl. rewrite !occurrences_app.
  destruct (params_toString_count (buildSearchParams o)) as [-> ->].
  destruct (params_toString_count (buildSoldSearchParams so)) as [-> ->].
  repeat apply conj; reflexivity.
Qed.

(** *** Property types and sort orders *)













Lemma location_piece_first (locId : list N) (o : SearchOptions) :
  Js.truthy_string locId = true ->
  buildSearchParams (with_locationId (Some locId) o)
  = (js "location_ids[]", locId) :: buildSearchParams (with_locationId None o).
Proof.
  intros H. rewrite !buildSearchParams_pieces. unfold search_pieces, with_locationId.
  cbn [locationId minRooms maxRooms minPrice maxPrice minArea maxArea maxFee
       propertyTypes newConstruction keywords openHouse hasBalcony hasElevator
       daysListed sortOrder concat].
  unfold if_string at 1 4. rewrite H. reflexivity.
Qed.

(** X6: a location id that is not empty adds the parameter location_ids[]
    in front and leaves every other parameter as it is without a
    location; without an id, or with the empty one, no parameter has that
    name. *)
Theorem buildSearchUrl_location_first (locId : list N) (o : SearchOptions) :
  Js.truthy_string locId = true ->
  buildSearchParams (with_locationId (Some locId) o)
  = (js "location_ids[]", locId) :: buildSearchParams (with_locationId None o)
  /\ buildSearchParams (with_locationId (Some []) o)
     = buildSearchParams (with_locationId None o)
  /\ ~ In (js "location_ids[]")
          (List.map fst (buildSearchParams (with_locationId None o))).
Proof.
  intros H. split; [now apply location_piece_first|]. split; [reflexivity|].
  rewrite buildSearchParams_names. unfold names_of_set_fields, with_locationId.
  cbn [locationId truthy_opt one_if app]. intros I.
  repeat (apply in_app_or in I as [I|I];
          [first [ apply repeat_spec in I; vm_compute in I; discriminate
                 | unfold one_if in I;
                   match type of I with
                   | In _ (if ?b then _ else _) => destruct b
                   end; [destruct I as [I|[]]; vm_compute in I; discriminate|destruct I] ]
          |]).
  unfold one_if in I.
  match type of I with
  | In _ (if ?b then _ else _) => destruct b
  end; [destruct I as [I|[]]; vm_compute in I; discriminate|destruct I].
Qed.

Lemma buildSearchUrl_location_first_witness :
  Js.truthy_string (js "17744") = true
  /\ buildSearchParams (with_locationId (Some (js "17744")) two_rooms_three_million)
     = [(js "location_ids[]", js "17744"); (js "rooms_min", js "2");
        (js "price_max", js "3000000")].
Proof.
  split; [reflexivity|].
  rewrite (proj1 (buildSearchUrl_location_first (js "17744") two_rooms_three_million
                    eq_refl)).
  vm_compute. reflexivity.
Defined.

(** ** The fetchers *)

(** X7: without a render URL (none set, or the empty string)
    fetchViaRenderer throws the configuration error before sending
    anything, and so do fetchPage and, for a listing URL,
    getListingDetails. *)
Theorem fetchViaRenderer_not_configured (url : list N) w s t :
  truthy_opt (browserRenderUrl s) = false ->
  fetchViaRenderer url w s t = (Throw not_configured, t)
  /\ fetchPage url w s t = (Throw not_configured, t)
  /\ (Js.includes url (js "hemnet.se/bostad/") = true ->
      getListingDetails url w s t = (Throw not_configured, t)).
Proof.
  intros H.
  assert (V : fetchViaRenderer url w s t = (Throw not_configured, t)).
  { unfold fetchViaRenderer, bind, settings, truthy_opt in *.
    destruct (browserRenderUrl s) as [u|]; [rewrite H|]; reflexivity. }
  assert (P : fetchPage url w s t = (Throw not_configured, t)).
  { unfold fetchPage, bind. now rewrite V. }
  split; [exact V|]. split; [exact P|].
  intros Hu. unfold getListingDetails. rewrite Hu. cbn [negb].
  unfold bind. now rewrite P.
Qed.

Lemma fetchViaRenderer_not_configured_witness :
  truthy_opt (browserRenderUrl {| browserRenderUrl := Some []; browserRenderApiKey := None |}) = false
  /\ fetchViaRenderer (js "https://www.hemnet.se/bostader?") challenge_world
       {| browserRenderUrl := Some []; browserRenderApiKey := None |} []
     = (Throw not_configured, []).
Proof.
  split; [reflexivity|].
  apply (fetchViaRenderer_not_configured (js "https://www.hemnet.se/bostader?")
           challenge_world {| browserRenderUrl := Some []; browserRenderApiKey := None |} []).
  reflexivity.
Defined.

Lemma render_one_request (url : list N) w s t :
  truthy_opt (browserRenderUrl s) = true ->
  snd (fetchViaRenderer url w s t) = t ++ [POST (render_request s url)].
Proof.
  intros H. unfold fetchViaRenderer, render_request, bind, settings, fetch_render,
    of_option, throw, ret, truthy_opt in *.
  destruct (browserRenderUrl s) as [u|]; [|discriminate]. rewrite H. cbn [default].
  destruct (browserRenderApiKey s) as [key|]; cbn [default];
    [destruct (Js.truthy_string key)|];
    repeat case_match; simplify_eq; reflexivity.
Qed.

(** X8: with a render URL set, fetchViaRenderer sends exactly one
    request whatever the outcome: a POST to that URL whose body names the
    page and the timeout 10000, with the header Authorization: Bearer key
    exactly when an API key that is not empty is set. *)
Theorem fetchViaRenderer_one_request (url : list N) w s t :
  truthy_opt (browserRenderUrl s) = true ->
  snd (fetchViaRenderer url w s t) = t ++ [POST (render_request s url)].
Proof. apply render_one_request. Qed.

Lemma fetchViaRenderer_one_request_witness :
  truthy_opt (browserRenderUrl (setBrowserRenderApiKey (js "k1") sample_settings)) = true
  /\ snd (fetchViaRenderer (js "https://www.hemnet.se/bostader?") challenge_world
            (setBrowserRenderApiKey (js "k1") sample_settings) [])
     = [POST {| endpoint := js "http://localhost:3000/render";
                authorization := Some (js "Bearer k1");
                body_url := js "https://www.hemnet.se/bostader?";
                body_timeout := 10000 |}].
Proof.
  split; [reflexivity|].
  rewrite (fetchViaRenderer_one_request (js "https://www.hemnet.se/bostader?")
             challenge_world (setBrowserRenderApiKey (js "k1") sample_settings) []
             eq_refl).
  vm_compute. reflexivity.
Defined.

Lemma fetchViaRenderer_Ok (url html : list N) w s t t' :
  fetchViaRenderer url w s t = (Ok html, t') ->
  Js.truthy_string html = true /\ truthy_opt (browserRenderUrl s) = true.
Proof.
  unfold fetchViaRenderer, bind, settings, fetch_render, of_option, throw, ret,
    truthy_opt.
  intros H. repeat case_match; simplify_eq;
    match goal with
    | E : negb (Js.truthy_string html) = false |- _ =>
      apply negb_false_iff in E; rewrite E; split; reflexivity
    end.
Qed.

Lemma fetchPage_Ok (url html : list N) w s t t' :
  fetchPage url w s t = (Ok html, t') ->
  html <> [] /\ t' = t ++ [POST (render_request s url)].
Proof.
  intros H. unfold fetchPage in H.
  apply bind_inv_Ok in H as (h & t1 & V & H).
  destruct (Js.includes h (js "Verify you are human")); [discriminate|].
  unfold ret in H. inversion H; subst.
  destruct (fetchViaRenderer_Ok _ _ _ _ _ _ V) as [T C].
  pose proof (render_one_request url w s t C) as R.
  rewrite V in R. cbn [snd] in R.
  split; [|exact R]. intros ->. discriminate.
Qed.

(** X9: a page that fetchPage returns is never empty, and it has cost
    exactly one request, the POST for that page. *)
Theorem fetchPage_success (url html : list N) w s t t' :
  fetchPage url w s t = (Ok html, t') ->
  html <> [] /\ t' = t ++ [POST (render_request s url)].
Proof. apply fetchPage_Ok. Qed.

Lemma fetchPage_success_witness :
  fetchPage (js "https://www.hemnet.se/bostad/1") two_terms_world sample_settings []
  = (Ok two_terms_markup,
     [POST (render_request sample_settings (js "https://www.hemnet.se/bostad/1"))])
  /\ two_terms_markup <> [].
Proof.
  assert (H : fetchPage (js "https://www.hemnet.se/bostad/1") two_terms_world
                sample_settings []
              = (Ok two_terms_markup,
                 [POST (render_request sample_settings (js "https://www.hemnet.se/bostad/1"))]))
    by (vm_compute; reflexivity).
  split; [exact H|].
  exact (proj1 (fetchPage_success _ _ _ _ _ _ H)).
Defined.

(** X10: a direct answer with a success status is final for fetchJson:
    its JSON is the result, or the call fails when the body is not JSON,
    and in both cases the GET is the only request; the renderer is not
    asked. *)
Theorem fetchJson_direct_is_final (url : list N) w s t response :
  fetch_get w url = Some response ->
  direct_ok response = true ->
  fetchJson url w s t
  = (match direct_json response with
     | Some v => Ok v
     | None => Throw Rejection
     end, t ++ [GET url]).
Proof.
  intros H O. unfold fetchJson, bind, catch, fetch, of_option, throw, ret.
  rewrite H, O. destruct (direct_json response); reflexivity.
Qed.

Lemma fetchJson_direct_is_final_witness :
  fetchJson (js "https://www.hemnet.se/locations/show?q=Kiruna&h=1")
    (direct_world {| direct_ok := true; direct_json := None |}) sample_settings []
  = (Throw Rejection, [GET (js "https://www.hemnet.se/locations/show?q=Kiruna&h=1")]).
Proof.
  apply (fetchJson_direct_is_final
           (js "https://www.hemnet.se/locations/show?q=Kiruna&h=1")
           (direct_world {| direct_ok := true; direct_json := None |})
           sample_settings [] {| direct_ok := true; direct_json := None |});
    reflexivity.
Defined.

Lemma toLowerCase_app (a b : list N) :
  Js.toLowerCase (a ++ b) = Js.toLowerCase a ++ Js.toLowerCase b.
Proof. unfold Js.toLowerCase. apply List.map_app. Qed.

(** a literal under the [i] flag matches a text with the same lower case *)
Lemma str_i_matches (l : list N) ms :
  Forall2 atom_matches
    (List.map (fun u => Re.One (fun v => Js.lower_unit v =? Js.lower_unit u)) l) ms ->
  Js.toLowerCase (concat ms) = Js.toLowerCase l.
Proof.
  revert ms. induction l as [|u l IH]; intros ms F; cbn [List.map] in F.
  - apply Forall2_nil_inv_l in F as ->. reflexivity.
  - apply Forall2_cons_inv_l in F as (m & ms' & (v & -> & E) & F & ->).
    apply N.eqb_eq in E. cbn [concat app Js.toLowerCase List.map].
    rewrite E. f_equal. apply (IH _ F).
Qed.

Lemma pre_re_match (html : list N) ms :
  Re.exec pre_re html = Some ms ->
  Js.includes (Js.toLowerCase html) (js "<pre") = true.
Proof.
  intros H. apply exec_sound in H as (F & before & tail & ->).
  unfold pre_re in F.
  apply Forall2_app_inv_l in F as (k1 & k2 & F1 & _ & ->).
  apply str_i_matches in F1.
  rewrite concat_app, !toLowerCase_app, F1.
  replace (Js.toLowerCase (js "<pre")) with (js "<pre") by (vm_compute; reflexivity).
  rewrite <- app_assoc. apply includes_app.
Qed.

(** X11: when the page the renderer returns has no pre element (no text
    <pre in any letter case), the fallback of fetchJson throws the error
    Could not extract JSON from the URL, without calling JSON.parse. *)
Theorem fetchJson_fallback_without_pre (url html : list N) w s t t' :
  fetchViaRenderer url w s t = (Ok html, t') ->
  Js.includes (Js.toLowerCase html) (js "<pre") = false ->
  fetchJson_fallback url w s t = (Throw (no_json url), t').
Proof.
  intros V H. unfold fetchJson_fallback. rewrite (bind_Ok _ _ _ _ _ _ _ V).
  unfold bind, world, ret, throw.
  destruct (Re.exec pre_re html) as [ms|] eqn:E; [|reflexivity].
  apply pre_re_match in E. congruence.
Qed.

Lemma fetchJson_fallback_without_pre_witness :
  fetchViaRenderer (js "https://www.hemnet.se/locations/show?q=x&h=1")
    challenge_world sample_settings []
  = (Ok challenge_page,
     [POST (render_request sample_settings (js "https://www.hemnet.se/locations/show?q=x&h=1"))])
  /\ Js.includes (Js.toLowerCase challenge_page) (js "<pre") = false
  /\ fst (fetchJson_fallback (js "https://www.hemnet.se/locations/show?q=x&h=1")
            challenge_world sample_settings [])
     = Throw (no_json (js "https://www.hemnet.se/locations/show?q=x&h=1")).
Proof.
  assert (V : fetchViaRenderer (js "https://www.hemnet.se/locations/show?q=x&h=1")
                challenge_world sample_settings []
              = (Ok challenge_page,
                 [POST (render_request sample_settings
                          (js "https://www.hemnet.se/locations/show?q=x&h=1"))]))
    by (vm_compute; reflexivity).
  assert (H : Js.includes (Js.toLowerCase challenge_page) (js "<pre") = false)
    by (vm_compute; reflexivity).
  split; [exact V|]. split; [exact H|].
  now rewrite (fetchJson_fallback_without_pre _ _ _ _ _ _ V H).
Defined.

(** *** The autocomplete URL *)

Lemma uri_byte_clean u b :
  u ∈ url_delimiters -> occurrences u (Js.uri_byte b) = 0%nat.
Proof.
  intros H. unfold Js.uri_byte.
  destruct (Js.uri_unreserved b) eqn:A.
  - unfold occurrences. cbn [List.filter]. destruct (u =? b) eqn:E; [|reflexivity].
    apply N.eqb_eq in E. subst b. apply list_elem_of_In in H. cbn [url_delimiters In] in H.
    repeat (destruct H as [<-|H]; [vm_compute in A; discriminate|]). destruct H.
  - unfold Js.percent, occurrences, Js.hex_digit. cbn [List.filter].
    apply list_elem_of_In in H. cbn [url_delimiters In] in H.
    assert (X : forall n, (u =? (if n <? 10 then 48 + n else 55 + n)) = false).
    { intros n. apply N.eqb_neq.
      destruct (n <? 10) eqn:E; [apply N.ltb_lt in E|apply N.ltb_ge in E];
        repeat (destruct H as [<-|H]; [lia|]); destruct H. }
    rewrite !X.
    repeat (destruct H as [<-|H]; [reflexivity|]). destruct H.
Qed.

Lemma encode_points_clean u cps q :
  u ∈ url_delimiters ->
  Js.encode_points Js.uri_byte cps = Some q -> occurrences u q = 0%nat.
Proof.
  intros H. revert q. induction cps as [|[cp|] cps IH]; intros q E; cbn in E.
  - now inversion E.
  - destruct (Js.encode_points Js.uri_byte cps) as [r|]; [|discriminate].
    inversion E; subst. rewrite occurrences_app, (IH r eq_refl), Nat.add_0_r.
    apply occurrences_concat_0. apply List.Forall_forall. intros y Hy.
    apply in_map_iff in Hy as (b & <- & _). now apply uri_byte_clean.
  - discriminate.
Qed.

(** X12: the text that encodeURIComponent makes of a location holds no
    delimiter of a URL, so the autocomplete URL has exactly one [?], one
    [&] and two [=], and no [#]: a location name cannot add a parameter
    to the request or cut it short. *)
Theorem autocomplete_url_delimiters (location q : list N) :
  Js.encodeURIComponent location = Some q ->
  Forall (fun u => occurrences u q = 0%nat) url_delimiters
  /\ occurrences 63 (autocomplete_url q) = 1%nat
  /\ occurrences 38 (autocomplete_url q) = 1%nat
  /\ occurrences 61 (autocomplete_url q) = 2%nat
  /\ occurrences 35 (autocomplete_url q) = 0%nat.
Proof.
  intros E. unfold Js.encodeURIComponent in E.
  assert (C : forall u, u ∈ url_delimiters -> occurrences u q = 0%nat).
  { intros u Hu. exact (encode_points_clean u _ _ Hu E). }
  split; [apply Forall_forall; exact C|].
  unfold autocomplete_url. rewrite !occurrences_app.
  rewrite !C by (apply list_elem_of_In; cbn; tauto).
  repeat apply conj; reflexivity.
Qed.

Lemma autocomplete_url_delimiters_witness :
  Js.encodeURIComponent (js "Åre & Umeå?x=1#y") = Some (js "%C3%85re%20%26%20Ume%C3%A5%3Fx%3D1%23y")
  /\ occurrences 38 (autocomplete_url (js "%C3%85re%20%26%20Ume%C3%A5%3Fx%3D1%23y")) = 1%nat.
Proof.
  assert (E : Js.encodeURIComponent (js "Åre & Umeå?x=1#y")
              = Some (js "%C3%85re%20%26%20Ume%C3%A5%3Fx%3D1%23y"))
    by (vm_compute; reflexivity).
  split; [exact E|].
  exact (proj1 (proj2 (proj2 (autocomplete_url_delimiters _ _ E)))).
Defined.

(** ** The summary scraper, further *)

Lemma omap_total_length {A B} (f : A -> option B) (l : list A) :
  (forall x, x ∈ l -> is_Some (f x)) -> length (omap f l) = length l.
Proof.
  induction l as [|x l IH]; intros H; cbn [omap list_omap]; [reflexivity|].
  destruct (H x) as [y Hy]; [left|]. rewrite Hy. cbn [length]. f_equal.
  apply IH. intros z Hz. apply H. now right.
Qed.

(** X13: the summary extraction returns one listing per anchor whose
    href contains /bostad/, up to 25: as many as there are anchors when
    there are fewer than 25, and none when there is none. *)
Theorem extractListings_count (doc : Dom.document) (locationName : list N) :
  length (extractListings doc locationName)
  = Nat.min 25 (length (listing_anchors doc)).
Proof.
  unfold extractListings, Dom.slice0. rewrite omap_total_length.
  - apply length_firstn.
  - intros a Ha. apply elem_of_firstn in Ha.
    destruct (listing_of_anchor doc locationName a Ha) as (l & Hl & _). now exists l.
Qed.

(** what the callback builds, read back from its result *)
Lemma listing_of_inv locationName el l :
  listing_of locationName el = Some l ->
  exists href,
    Dom.attr "href" el = Some href
    /\ Js.includes href (js "/bostad/") = true
    /\ url l = (if Js.startsWith href (js "http") then href
                else js "https://www.hemnet.se" ++ href)
    /\ location l = locationName
    /\ description l
       = Js.substring0 (Js.trim (Dom.text (Dom.first (Dom.find (Dom.Tag "p") el)))) 200
    /\ price l = Js.trim (whole_or_empty (Re.exec price_re (Dom.textContent el)))
    /\ rooms l = whole_or_empty (Re.exec rooms_re (Dom.textContent el))
    /\ area l = whole_or_empty (Re.exec area_re (Dom.textContent el))
    /\ monthlyFee l = whole_or_empty (feeMatch el)
    /\ imageUrl l = imageUrl_in (Dom.find (Dom.Tag "img") el).
Proof.
  unfold listing_of. intros H.
  destruct (Dom.attr "href" el) as [href|]; [|discriminate].
  destruct (negb (Js.truthy_string href)
            || negb (Js.includes href (js "/bostad/"))) eqn:G; [discriminate|].
  apply orb_false_iff in G as [_ G]. apply negb_false_iff in G.
  cbv zeta in H.
  match type of H with
  | (if ?c then _ else _) = _ => destruct c
  end; [|discriminate].
  inversion H. exists href. repeat apply conj; reflexivity || exact G.
Qed.

Lemma listing_in_extractListings doc locationName l :
  l ∈ extractListings doc locationName ->
  exists el, listing_of locationName el = Some l.
Proof.
  unfold extractListings. intros H. apply list_elem_of_omap in H as (a & _ & H).
  now exists (fst a).
Qed.

Lemma includes_app_l (a b sub : list N) :
  Js.includes b sub = true -> Js.includes (a ++ b) sub = true.
Proof.
  intros H. induction a as [|x a IH]; [exact H|].
  cbn [app Js.includes]. rewrite IH. apply orb_true_r.
Qed.

(** X14: every listing of the summary extraction has an absolute URL
    that contains /bostad/ (the href itself when it starts with http, the
    href after https://www.hemnet.se otherwise), carries the location
    name the extraction was given, and has a description of at most 200
    code units. *)
Theorem extractListings_fields (doc : Dom.document) (locationName : list N) l :
  l ∈ extractListings doc locationName ->
  Js.startsWith (url l) (js "http") = true
  /\ Js.includes (url l) (js "/bostad/") = true
  /\ location l = locationName
  /\ (length (description l) <= 200)%nat.
Proof.
  intros H. apply listing_in_extractListings in H as (el & H).
  apply listing_of_inv in H
    as (href & _ & I & U & L & D & _).
  rewrite U, L, D. repeat apply conj.
  - destruct (Js.startsWith href (js "http")) eqn:S; [exact S|].
    replace (js "https://www.hemnet.se") with (js "http" ++ js "s://www.hemnet.se")
      by (vm_compute; reflexivity).
    rewrite <- app_assoc. apply startsWith_app.
  - destruct (Js.startsWith href (js "http")); [exact I|].
    now apply includes_app_l.
  - reflexivity.
  - unfold Js.substring0. rewrite length_firstn. lia.
Qed.

Lemma extractListings_fields_witness :
  (exists l, l ∈ extractListings thirty_anchors (js "Sverige"))
  /\ Forall (fun l => Js.startsWith (url l) (js "http") = true
                      /\ location l = js "Sverige")
            (extractListings thirty_anchors (js "Sverige")).
Proof.
  split.
  - destruct (extractListings thirty_anchors (js "Sverige")) as [|l ls] eqn:E;
      [vm_compute in E; discriminate|]. exists l. left.
  - apply Forall_forall. intros l Hl.
    destruct (extractListings_fields thirty_anchors (js "Sverige") l Hl)
      as (S & _ & L & _).
    now split.
Defined.

Lemma first_candidate_ok (l : list (list N)) :
  first_candidate l = [] \/ hemnet_image (first_candidate l) = true.
Proof.
  induction l as [|c l IH]; cbn [first_candidate]; [now left|].
  destruct (Js.startsWith c (js "http") && Js.includes c (js "hemnet")) eqn:E;
    [right; exact E|exact IH].
Qed.

Lemma imageUrl_in_ok (imgs : list Dom.selected) :
  imageUrl_in imgs = [] \/ hemnet_image (imageUrl_in imgs) = true.
Proof.
  induction imgs as [|img imgs IH]; cbn [imageUrl_in]; [now left|].
  destruct (Js.truthy_string (image_of (fst img))) eqn:T; [|exact IH].
  unfold image_of in *. 
  destruct (first_candidate_ok
              [default [] (Dom.attr "src" (fst img));
               srcsetFirst (default [] (Dom.attr "srcset" (fst img)));
               default [] (Dom.attr "data-src" (fst img))]) as [E|E].
  - rewrite E in T. discriminate.
  - now right.
Qed.

(** X15: the thumbnail of a listing is either empty or a URL that starts
    with http and contains hemnet: a placeholder, a relative path or an
    image of another host is never reported. *)
Theorem extractListings_imageUrl (doc : Dom.document) (locationName : list N) l :
  l ∈ extractListings doc locationName ->
  imageUrl l = [] \/ hemnet_image (imageUrl l) = true.
Proof.
  intros H. apply listing_in_extractListings in H as (el & H).
  apply listing_of_inv in H as (href & H). 
  destruct H as (_ & _ & _ & _ & _ & _ & _ & _ & _ & ->).
  apply imageUrl_in_ok.
Qed.

Lemma extractListings_imageUrl_witness :
  extractListings image_anchor_page (js "Sverige") = [image_anchor_listing]
  /\ hemnet_image (imageUrl image_anchor_listing) = true.
Proof.
  assert (E : extractListings image_anchor_page (js "Sverige") = [image_anchor_listing])
    by (vm_compute; reflexivity).
  split; [exact E|].
  destruct (extractListings_imageUrl image_anchor_page (js "Sverige")
              image_anchor_listing) as [H|H].
  - rewrite E. left.
  - vm_compute in H. discriminate.
  - exact H.
Defined.

(** *** The amounts of a listing *)

Lemma digit_not_space d : Js.isDigit d = true -> Js.isSpace d = false.
Proof.
  unfold Js.isDigit, Js.isSpace. intros H.
  apply andb_true_iff in H as [H1 H2]. apply N.leb_le in H1, H2.
  rewrite !orb_false_iff, !andb_false_iff, !N.eqb_neq, !N.leb_gt. lia.
Qed.

Lemma forallb_app_true {A} (p : A -> bool) (a b : list A) :
  forallb p a = true -> forallb p b = true -> forallb p (a ++ b) = true.
Proof. intros Ha Hb. now rewrite forallb_app, Ha, Hb. Qed.

Lemma forallb_weaken {A} (p q : A -> bool) (l : list A) :
  (forall x, p x = true -> q x = true) -> forallb p l = true -> forallb q l = true.
Proof.
  intros H. induction l as [|x l IH]; cbn [forallb]; [reflexivity|].
  intros E. apply andb_true_iff in E as [E1 E2]. now rewrite (H _ E1), IH.
Qed.

Lemma digit_is_digit_or_space d : Js.isDigit d = true -> digit_or_space d = true.
Proof. intros H. unfold digit_or_space. now rewrite H. Qed.

Lemma space_is_digit_or_space d : Js.isSpace d = true -> digit_or_space d = true.
Proof. intros H. unfold digit_or_space. rewrite H. apply orb_true_r. Qed.

Lemma trimEnd_snoc (x : list N) c :
  Js.isSpace c = false -> Js.trimEnd (x ++ [c]) = x ++ [c].
Proof.
  intros C. unfold Js.trimEnd. rewrite rev_app_distr.
  change (rev [c] ++ rev x) with (c :: rev x). cbn [Js.trimStart]. rewrite C.
  change (c :: rev x) with (rev [c] ++ rev x).
  rewrite <- rev_app_distr. apply rev_involutive.
Qed.

(** a text that starts with a digit and ends with a unit that does not
    end in white space is left as it is by [trim] *)
Lemma trim_amount d (body unit : list N) c :
  Js.isDigit d = true -> Js.isSpace c = false ->
  Js.trim (d :: body ++ unit ++ [c]) = d :: body ++ unit ++ [c].
Proof.
  intros D C. unfold Js.trim. cbn [Js.trimStart].
  rewrite (digit_not_space _ D).
  replace (d :: body ++ unit ++ [c]) with ((d :: body ++ unit) ++ [c])
    by (cbn [app]; now rewrite <- app_assoc).
  now apply trimEnd_snoc.
Qed.

Lemma price_shape (s : list N) :
  amount_text "kr" (Js.trim (whole_or_empty (Re.exec price_re s))).
Proof.
  destruct (Re.exec price_re s) as [ms|] eqn:E; [|now left]. right.
  apply exec_sound in E as (F & _). unfold price_re in F.
  apply Forall2_app_inv_l in F as (k1 & k2 & F1 & F2 & ->).
  apply Forall2_app_inv_l in F2 as (k3 & k4 & F2 & F3 & ->).
  apply str_matches in F2.
  apply Forall2_cons_inv_l in F1 as (m0 & r0 & (d & -> & D) & F1 & ->).
  apply Forall2_cons_inv_l in F1 as (m1 & r1 & M1 & F1 & ->).
  apply Forall2_cons_inv_l in F1 as (m2 & r2 & (d2 & -> & D2) & F1 & ->).
  apply Forall2_cons_inv_l in F1 as (m3 & r3 & M3 & F1 & ->).
  apply Forall2_nil_inv_l in F1 as ->.
  apply Forall2_cons_inv_l in F3 as (m4 & r4 & M4 & F3 & ->).
  apply Forall2_nil_inv_l in F3 as ->.
  cbn [atom_matches] in M1, M3, M4. subst m4.
  exists d, (m1 ++ [d2] ++ m3). cbn [whole_or_empty]. unfold Re.whole.
  rewrite !concat_app, F2. cbn [concat app]. rewrite !app_nil_r.
  replace (js "kr") with ([107] ++ [114]) by (vm_compute; reflexivity).
  split; [|split; [exact D|]].
  - replace (d :: (m1 ++ d2 :: m3) ++ [107] ++ [114])
      with (d :: (m1 ++ d2 :: m3) ++ [107] ++ [114]) by reflexivity.
    rewrite <- !app_assoc. cbn [app].
    replace (d :: m1 ++ d2 :: m3 ++ [107; 114])
      with (d :: (m1 ++ d2 :: m3) ++ [107] ++ [114])
      by (rewrite <- !app_assoc; reflexivity).
    now apply trim_amount.
  - apply forallb_app_true; [exact M1|]. cbn [app forallb].
    rewrite (digit_is_digit_or_space _ D2).
    exact (forallb_weaken _ _ _ space_is_digit_or_space M3).
Qed.

Lemma unit_pattern_shape (p : N -> bool) (unit : string) (s : list N) :
  (forall x, p x = true -> digit_or_space x = true) ->
  amount_text unit
    (whole_or_empty
       (Re.exec ([Re.One Js.isDigit; Re.Star p; Re.Star Js.isSpace] ++ Re.str unit) s)).
Proof.
  intros P.
  destruct (Re.exec ([Re.One Js.isDigit; Re.Star p; Re.Star Js.isSpace] ++ Re.str unit) s)
    as [ms|] eqn:E; [|now left]. right.
  apply exec_sound in E as (F & _).
  apply Forall2_app_inv_l in F as (k1 & k2 & F1 & F2 & ->).
  apply str_matches in F2.
  apply Forall2_cons_inv_l in F1 as (m0 & r0 & (d & -> & D) & F1 & ->).
  apply Forall2_cons_inv_l in F1 as (m1 & r1 & M1 & F1 & ->).
  apply Forall2_cons_inv_l in F1 as (m2 & r2 & M2 & F1 & ->).
  apply Forall2_nil_inv_l in F1 as ->.
  cbn [atom_matches] in M1, M2.
  exists d, (m1 ++ m2). cbn [whole_or_empty]. unfold Re.whole.
  rewrite concat_app, F2. cbn [concat app]. rewrite app_nil_r.
  split; [reflexivity|]. split; [exact D|].
  apply forallb_app_true.
  - exact (forallb_weaken _ _ _ P M1).
  - exact (forallb_weaken _ _ _ space_is_digit_or_space M2).
Qed.

Lemma feeMatch_in_shape (nodes : list Dom.selected) :
  amount_text "kr/mån" (whole_or_empty (feeMatch_in nodes)).
Proof.
  induction nodes as [|node nodes IH]; cbn [feeMatch_in]; [now left|].
  pose proof (unit_pattern_shape digit_or_space "kr/mån" (nodeText (fst node))
                (fun x H => H)) as S.
  change ([Re.One Js.isDigit; Re.Star digit_or_space; Re.Star Js.isSpace]
          ++ Re.str "kr/mån") with fee_re in S.
  destruct (Re.exec fee_re (nodeText (fst node))); [exact S|exact IH].
Qed.

(** X16: in every listing of the summary extraction each of price,
    rooms, area and monthlyFee is either empty or a digit, followed by
    digits and white space only, followed by its unit: kr, rum, m² or
    kr/mån. The price is given without the white space around it. *)
Theorem extractListings_amounts (doc : Dom.document) (locationName : list N) l :
  l ∈ extractListings doc locationName ->
  amount_text "kr" (price l)
  /\ amount_text "rum" (rooms l)
  /\ amount_text "m²" (area l)
  /\ amount_text "kr/mån" (monthlyFee l).
Proof.
  intros H. apply listing_in_extractListings in H as (el & H).
  apply listing_of_inv in H
    as (href & _ & _ & _ & _ & _ & -> & -> & -> & -> & _).
  repeat apply conj.
  - apply price_shape.
  - apply (unit_pattern_shape Js.isDigit "rum"), digit_is_digit_or_space.
  - apply (unit_pattern_shape Js.isDigit "m²"), digit_is_digit_or_space.
  - apply feeMatch_in_shape.
Qed.

Lemma extractListings_amounts_witness :
  extractListings image_anchor_page (js "Sverige") = [image_anchor_listing]
  /\ amount_text "kr" (price image_anchor_listing)
  /\ amount_text "kr/mån" (monthlyFee image_anchor_listing).
Proof.
  assert (E : extractListings image_anchor_page (js "Sverige") = [image_anchor_listing])
    by (vm_compute; reflexivity).
  split; [exact E|].
  destruct (extractListings_amounts image_anchor_page (js "Sverige")
              image_anchor_listing) as (P & _ & _ & F).
  - rewrite E. left.
  - split; [exact P|exact F].
Defined.

(** ** The two searches as a whole *)

Lemma bind_Throw {A B} (m : M A) (k : A -> M B) w s t e t' :
  m w s t = (Throw e, t') -> bind m k w s t = (Throw e, t').
Proof. intros H. unfold bind. now rewrite H. Qed.


(** X17: when findLocationId finds nothing for a location that is not
    empty, both searches throw the error that names the location, and the
    only requests sent are those of the lookup: no search page is
    fetched. *)
Theorem search_location_not_found (location : list N) o so w s t t' :
  Js.truthy_string location = true ->
  findLocationId location w s t = (Ok None, t') ->
  searchHemnet (Some location) o w s t = (Throw (location_not_found location), t')
  /\ searchSoldHemnet (Some location) so w s t
     = (Throw (location_not_found location), t').
Proof.
  intros T H.
  assert (R : bind (findLocationId location)
                (fun locationResult =>
                   match locationResult with
                   | None => throw (location_not_found location)
                   | Some r => ret (Some (Js.ToString (id r)), name r)
                   end) w s t
              = (Throw (location_not_found location), t'))
    by (rewrite (bind_Ok _ _ _ _ _ _ _ H); reflexivity).
  unfold searchHemnet, searchSoldHemnet, truthy_opt. rewrite T. cbn [default].
  split; apply (bind_Throw _ _ _ _ _ _ _ R).
Qed.

Lemma search_location_not_found_witness :
  Js.truthy_string (js "Atlantis") = true
  /\ findLocationId (js "Atlantis") challenge_world sample_settings []
     = (Ok None,
        [GET (js "https://www.hemnet.se/locations/show?q=Atlantis&h=1");
         POST (render_request sample_settings
                 (js "https://www.hemnet.se/locations/show?q=Atlantis&h=1"))])
  /\ fst (searchHemnet (Some (js "Atlantis")) no_options challenge_world
            sample_settings [])
     = Throw (location_not_found (js "Atlantis")).
Proof.
  assert (H : findLocationId (js "Atlantis") challenge_world sample_settings []
     = (Ok None,
        [GET (js "https://www.hemnet.se/locations/show?q=Atlantis&h=1");
         POST (render_request sample_settings
                 (js "https://www.hemnet.se/locations/show?q=Atlantis&h=1"))]))
    by (vm_compute; reflexivity).
  split; [reflexivity|]. split; [exact H|].
  now rewrite (proj1 (search_location_not_found (js "Atlantis") no_options
                        {| s_locationId := None; s_minRooms := None; s_maxRooms := None;
                           s_minPrice := None; s_maxPrice := None; s_minArea := None;
                           s_maxArea := None; s_propertyTypes := None;
                           s_sortOrder := None |}
                        challenge_world sample_settings [] _ eq_refl H)).
Defined.


(** ** The sold-listing scraper *)

Lemma startsWith_inv (s sub : list N) :
  Js.startsWith s sub = true -> exists post, s = sub ++ post.
Proof.
  revert s. induction sub as [|c sub IH]; intros s H; [now exists s|].
  destruct s as [|u s]; [discriminate|]. cbn [Js.startsWith] in H.
  apply andb_true_iff in H as [E H]. apply N.eqb_eq in E as ->.
  destruct (IH _ H) as (post & ->). now exists post.
Qed.

Lemma includes_inv (s sub : list N) :
  Js.includes s sub = true -> exists pre post, s = pre ++ sub ++ post.
Proof.
  induction s as [|u s IH]; cbn [Js.includes]; intros H.
  - rewrite orb_false_r in H. apply startsWith_inv in H as (post & ->).
    now exists [], post.
  - apply orb_true_iff in H as [H|H].
    + apply startsWith_inv in H as (post & ->). now exists [], post.
    + destruct (IH H) as (pre & post & ->). now exists (u :: pre), post.
Qed.

(** a text that contains [a ++ b] contains [a] and contains [b] *)
Lemma includes_parts (s a b : list N) :
  Js.includes s (a ++ b) = true ->
  Js.includes s a = true /\ Js.includes s b = true.
Proof.
  intros H. apply includes_inv in H as (pre & post & ->). split.
  - rewrite <- app_assoc. apply includes_app.
  - replace (pre ++ (a ++ b) ++ post) with ((pre ++ a) ++ b ++ post)
      by now rewrite <- !app_assoc.
    apply includes_app.
Qed.

Lemma sold_link_href (n : Dom.node) :
  sold_link n = true ->
  exists href,
    Dom.attr "href" n = Some href
    /\ Js.includes href (js "/salda/") = true
    /\ propertyType_of href ∈ sold_property_types.
Proof.
  unfold sold_link, attr_contains. cbn [Dom.matches]. intros H.
  destruct (Dom.attr "href" n) as [href|];
    [|rewrite !andb_false_r in H; discriminate].
  exists href. split; [reflexivity|].
  assert (P : forall kind,
            Js.includes href (js "/salda/" ++ js kind) = true ->
            Js.includes href (js "/salda/") = true
            /\ Js.includes href (js "/" ++ js kind) = true).
  { intros kind I. split; [exact (proj1 (includes_parts _ _ _ I))|].
    replace (js "/salda/" ++ js kind) with (js "/salda" ++ (js "/" ++ js kind)) in I
      by (now rewrite app_assoc).
    exact (proj2 (includes_parts _ _ _ I)). }
  assert (Q : Js.includes href (js "/salda/") = true
              /\ (Js.includes href (js "/villa-") = true
                  \/ Js.includes href (js "/lagenhet-") = true
                  \/ Js.includes href (js "/radhus-") = true
                  \/ Js.includes href (js "/fritidshus-") = true
                  \/ Js.includes href (js "/tomt-") = true)).
  { repeat (apply orb_true_iff in H as [H|H]);
      apply andb_true_iff in H as [_ H];
      [ destruct (P "lagenhet-"%string H) as [A B]
      | destruct (P "villa-"%string H) as [A B]
      | destruct (P "radhus-"%string H) as [A B]
      | destruct (P "fritidshus-"%string H) as [A B]
      | destruct (P "tomt-"%string H) as [A B] ];
      (split; [exact A|]); tauto. }
  destruct Q as [A B]. split; [exact A|].
  unfold propertyType_of, sold_property_types. cbn [List.map].
  destruct (Js.includes href (js "/villa-")); [left|].
  destruct (Js.includes href (js "/lagenhet-")); [right; left|].
  destruct (Js.includes href (js "/radhus-")); [do 2 right; left|].
  destruct (Js.includes href (js "/fritidshus-")); [do 3 right; left|].
  destruct (Js.includes href (js "/tomt-")); [do 4 right; left|].
  destruct B as [B|[B|[B|[B|B]]]]; discriminate.
Qed.

Lemma sold_listing_of_inv locationName el l :
  sold_listing_of locationName el = Some l ->
  exists href,
    Dom.attr "href" el = Some href
    /\ sold_url l = (if Js.startsWith href (js "http") then href
                     else js "https://www.hemnet.se" ++ href)
    /\ sold_location l = locationName
    /\ sold_propertyType l = propertyType_of href
    /\ sold_soldPrice l
       = amount_with_unit (Rx.leftmost soldPrice_re (Dom.textContent el)) "kr"
    /\ sold_pricePerSqm l
       = amount_with_unit (Rx.leftmost soldPricePerSqm_re (Dom.textContent el)) "kr/m²"
    /\ sold_monthlyFee l
       = amount_with_unit (Rx.leftmost soldFee_re (Dom.textContent el)) "kr/mån"
    /\ sold_priceChangePercent l
       = match Rx.leftmost priceChange_re (Dom.textContent el) with
         | Some m => Jsx.replace_spaces [] (Rx.group1 m) ++ js "%"
         | None => []
         end.
Proof.
  unfold sold_listing_of. intros H.
  destruct (Dom.attr "href" el) as [href|]; [|discriminate].
  destruct (negb (Js.truthy_string href)
            || negb (Js.includes href (js "/salda/"))); [discriminate|].
  cbv zeta in H.
  match type of H with
  | (if ?c then _ else _) = _ => destruct c
  end; [|discriminate].
  inversion H. exists href. repeat apply conj; reflexivity.
Qed.

Lemma sold_listing_of_anchor (doc : Dom.document) locationName (a : Dom.selected) :
  a ∈ sold_anchors doc -> is_Some (sold_listing_of locationName (fst a)).
Proof.
  unfold sold_anchors, select_where. intros H.
  apply list_elem_of_In, filter_In in H as [_ H].
  apply sold_link_href in H as (href & A & I & _).
  unfold sold_listing_of. rewrite A.
  assert (T : Js.truthy_string href = true).
  { apply (includes_truthy _ (js "/salda/")); [|exact I]. vm_compute. discriminate. }
  rewrite T, I. cbn [negb orb]. rewrite orb_true_r. eexists. reflexivity.
Qed.

(** X19: the sold extraction returns one listing per sold-listing anchor,
    up to 25. Every listing has an absolute URL, the location name it was
    given, and a property type that is never empty: one of villa,
    lägenhet, radhus, fritidshus and tomt, read off the URL. *)
Theorem extractSoldListings_fields (doc : Dom.document) (locationName : list N) :
  length (extractSoldListings doc locationName)
  = Nat.min 25 (length (sold_anchors doc))
  /\ forall l, l ∈ extractSoldListings doc locationName ->
       Js.startsWith (sold_url l) (js "http") = true
       /\ sold_location l = locationName
       /\ sold_propertyType l ∈ sold_property_types.
Proof.
  split.
  - unfold extractSoldListings, Dom.slice0. rewrite omap_total_length.
    + apply length_firstn.
    + intros a Ha. apply elem_of_firstn in Ha. now apply (sold_listing_of_anchor doc).
  - intros l H. unfold extractSoldListings in H.
    apply list_elem_of_omap in H as (a & Ha & H).
    apply elem_of_firstn in Ha. unfold sold_anchors, select_where in Ha.
    apply list_elem_of_In, filter_In in Ha as [_ Ha].
    apply sold_link_href in Ha as (href & A & _ & P).
    apply sold_listing_of_inv in H as (href' & A' & U & L & T & _).
    rewrite A in A'. inversion A'; subst href'. rewrite U, L, T.
    split; [|split; [reflexivity|exact P]].
    destruct (Js.startsWith href (js "http")) eqn:S; [exact S|].
    replace (js "https://www.hemnet.se") with (js "http" ++ js "s://www.hemnet.se")
      by (vm_compute; reflexivity).
    rewrite <- app_assoc. apply startsWith_app.
Qed.

(** *** Amounts of a sold listing *)

Lemma plain_spaces_app (a b : list N) :
  plain_spaces a = true -> plain_spaces b = true -> plain_spaces (a ++ b) = true.
Proof. apply forallb_app_true. Qed.

Lemma replace_spaces_plain (s : list N) :
  plain_spaces (Jsx.replace_spaces [32] s) = true.
Proof.
  unfold Jsx.replace_spaces. induction s as [|u s IH]; [reflexivity|].
  cbn [List.map concat]. apply plain_spaces_app; [|exact IH].
  destruct (Js.isSpace u) eqn:E; [reflexivity|].
  unfold plain_spaces. cbn [forallb]. now rewrite E.
Qed.

Lemma replace_spaces_none (s : list N) :
  no_spaces (Jsx.replace_spaces [] s) = true.
Proof.
  unfold Jsx.replace_spaces. induction s as [|u s IH]; [reflexivity|].
  cbn [List.map concat]. apply forallb_app_true; [|exact IH].
  destruct (Js.isSpace u) eqn:E; [reflexivity|].
  cbn [forallb]. now rewrite E.
Qed.

Lemma forallb_trimStart (p : N -> bool) (s : list N) :
  forallb p s = true -> forallb p (Js.trimStart s) = true.
Proof.
  induction s as [|u s IH]; [reflexivity|]. cbn [Js.trimStart].
  destruct (Js.isSpace u); [|tauto].
  cbn [forallb]. intros H. apply andb_true_iff in H as [_ H]. now apply IH.
Qed.

Lemma forallb_rev {A} (p : A -> bool) (s : list A) :
  forallb p s = true -> forallb p (rev s) = true.
Proof.
  induction s as [|u s IH]; [reflexivity|]. cbn [forallb rev]. intros H.
  apply andb_true_iff in H as [H1 H2]. apply forallb_app_true; [now apply IH|].
  cbn [forallb]. now rewrite H1.
Qed.

Lemma forallb_trim (p : N -> bool) (s : list N) :
  forallb p s = true -> forallb p (Js.trim s) = true.
Proof.
  intros H. unfold Js.trim, Js.trimEnd.
  now apply forallb_rev, forallb_trimStart, forallb_rev, forallb_trimStart.
Qed.

Lemma amount_with_unit_plain m unit :
  plain_spaces (js unit) = true -> plain_spaces (amount_with_unit m unit) = true.
Proof.
  intros U. unfold amount_with_unit. destruct m as [f|]; [|reflexivity].
  apply plain_spaces_app; [|apply plain_spaces_app; [reflexivity|exact U]].
  apply forallb_trim, replace_spaces_plain.
Qed.

(** X20: the sold price, the price per square metre and the monthly fee
    of a sold listing hold no white space other than the plain space (a
    no-break space of the page is replaced), and the price change holds
    no white space at all. *)
Theorem extractSoldListings_spaces (doc : Dom.document) (locationName : list N) l :
  l ∈ extractSoldListings doc locationName ->
  plain_spaces (sold_soldPrice l) = true
  /\ plain_spaces (sold_pricePerSqm l) = true
  /\ plain_spaces (sold_monthlyFee l) = true
  /\ no_spaces (sold_priceChangePercent l) = true.
Proof.
  intros H. unfold extractSoldListings in H.
  apply list_elem_of_omap in H as (a & _ & H).
  apply sold_listing_of_inv in H as (href & _ & _ & _ & _ & -> & -> & -> & ->).
  repeat apply conj;
    try (apply amount_with_unit_plain; vm_compute; reflexivity).
  destruct (Rx.leftmost priceChange_re (Dom.textContent (fst a))); [|reflexivity].
  apply forallb_app_true; [apply replace_spaces_none|vm_compute; reflexivity].
Qed.

Lemma extractSoldListings_spaces_witness :
  extractSoldListings sold_anchor_page (js "Sverige") = [sold_anchor_listing]
  /\ plain_spaces (sold_soldPrice sold_anchor_listing) = true
  /\ sold_soldPrice sold_anchor_listing = js "5 200 000 kr"
  /\ sold_priceChangePercent sold_anchor_listing = js "+12,5%".
Proof.
  assert (E : extractSoldListings sold_anchor_page (js "Sverige") = [sold_anchor_listing])
    by (vm_compute; reflexivity).
  split; [exact E|].
  destruct (extractSoldListings_spaces sold_anchor_page (js "Sverige")
              sold_anchor_listing) as (P & _).
  - rewrite E. left.
  - split; [exact P|]. split; reflexivity.
Defined.

(** ** The detail scraper, further *)

Lemma definition_in_first (pre post : list Dom.selected) el (term : list N) :
  (forall x, x ∈ pre -> Js.includes (Dom.textContent (fst x)) term = false) ->
  Js.includes (Dom.textContent (fst el)) term = true ->
  definition_in (pre ++ el :: post) term
  = Js.trim (Dom.text (Dom.next (Dom.Tag "dd") el)).
Proof.
  intros Hpre Hel. induction pre as [|x pre IH]; cbn [app definition_in].
  - now rewrite Hel.
  - rewrite (Hpre x) by left. apply IH. intros y Hy. apply Hpre. now right.
Qed.

(** X21: getDefinitionByTerm answers from the first dt element whose
    text contains the term: the value is the trimmed text of the dd
    element that follows it at once, and the empty string when no dd
    follows, whatever later dt elements hold. *)
Theorem getDefinitionByTerm_first_match (doc : Dom.document) term pre el post :
  Dom.select doc (Dom.Tag "dt") = pre ++ el :: post ->
  (forall x, x ∈ pre -> Js.includes (Dom.textContent (fst x)) (js term) = false) ->
  Js.includes (Dom.textContent (fst el)) (js term) = true ->
  getDefinitionByTerm doc term = Js.trim (Dom.text (Dom.next (Dom.Tag "dd") el))
  /\ (Dom.next (Dom.Tag "dd") el = [] -> getDefinitionByTerm doc term = []).
Proof.
  intros S Hpre Hel.
  assert (G : getDefinitionByTerm doc term
              = Js.trim (Dom.text (Dom.next (Dom.Tag "dd") el))).
  { unfold getDefinitionByTerm. rewrite S. now apply definition_in_first. }
  split; [exact G|]. intros N. rewrite G, N. reflexivity.
Qed.

Lemma getDefinitionByTerm_first_match_witness :
  getDefinitionByTerm two_labels_page "Avgift" = []
  /\ getDefinitionByTerm two_labels_page "Avgift per" = js "4 100 kr/mån".
Proof.
  split.
  - refine (proj2 (getDefinitionByTerm_first_match two_labels_page "Avgift" []
                     (Dom.Element (js "dt") [] [Dom.Text (js "Avgift")],
                      [Dom.Element (js "dt") [] [Dom.Text (js "Avgift per månad")];
                       Dom.Element (js "dd") [] [Dom.Text (js "4 100 kr/mån")]])
                     [(Dom.Element (js "dt") [] [Dom.Text (js "Avgift per månad")],
                       [Dom.Element (js "dd") [] [Dom.Text (js "4 100 kr/mån")]])]
                     _ _ _) _).
    + vm_compute. reflexivity.
    + intros x Hx. inversion Hx.
    + vm_compute. reflexivity.
    + vm_compute. reflexivity.
  - vm_compute. reflexivity.
Defined.

(** *** [trim] *)

Lemma trimStart_snoc (a : list N) u :
  Js.isSpace u = false -> Js.trimStart (a ++ [u]) = Js.trimStart a ++ [u].
Proof.
  intros U. induction a as [|x a IH]; cbn [app Js.trimStart].
  - now rewrite U.
  - destruct (Js.isSpace x); [exact IH|reflexivity].
Qed.

Lemma trimEnd_cons u (r : list N) :
  Js.isSpace u = false -> Js.trimEnd (u :: r) = u :: Js.trimEnd r.
Proof.
  intros U. unfold Js.trimEnd. cbn [rev]. rewrite (trimStart_snoc _ _ U).
  rewrite rev_app_distr. reflexivity.
Qed.

Lemma trimStart_head (s : list N) :
  Js.trimStart s = [] \/
  exists u r, Js.trimStart s = u :: r /\ Js.isSpace u = false.
Proof.
  induction s as [|x s IH]; [now left|]. cbn [Js.trimStart].
  destruct (Js.isSpace x) eqn:E; [exact IH|]. right. now exists x, s.
Qed.

Lemma trimStart_idempotent (s : list N) :
  Js.trimStart (Js.trimStart s) = Js.trimStart s.
Proof.
  destruct (trimStart_head s) as [->|(u & r & -> & U)]; [reflexivity|].
  cbn [Js.trimStart]. now rewrite U.
Qed.

Lemma trimEnd_idempotent (s : list N) : Js.trimEnd (Js.trimEnd s) = Js.trimEnd s.
Proof.
  unfold Js.trimEnd. now rewrite rev_involutive, trimStart_idempotent.
Qed.

Lemma trim_idempotent (s : list N) : Js.trim (Js.trim s) = Js.trim s.
Proof.
  unfold Js.trim. destruct (trimStart_head s) as [->|(u & r & -> & U)];
    [reflexivity|].
  rewrite (trimEnd_cons _ _ U). cbn [Js.trimStart]. rewrite U.
  now rewrite (trimEnd_cons _ _ U), trimEnd_idempotent.
Qed.

Lemma definition_in_trimmed (dts : list Dom.selected) (term : list N) :
  Js.trim (definition_in dts term) = definition_in dts term.
Proof.
  induction dts as [|el dts IH]; cbn [definition_in]; [reflexivity|].
  destruct (Js.includes (Dom.textContent (fst el)) term); [|exact IH].
  apply trim_idempotent.
Qed.

(** X22: each of the thirteen fields that getListingDetails reads by
    term carries no white space at its start or end, no-break spaces
    included: trimming it again changes nothing. *)
Theorem extractDetails_trimmed (html : list N) (doc : Dom.document) term field :
  (term, field) ∈ term_fields ->
  Js.trim (field (extractDetails html doc)) = field (extractDetails html doc).
Proof.
  intros H. rewrite (term_fields_read html doc term field H).
  apply definition_in_trimmed.
Qed.

Lemma extractDetails_trimmed_witness :
  ("Antal rum"%string, d_rooms) ∈ term_fields
  /\ d_rooms (extractDetails two_terms_markup two_terms_page) = js "3 rum"
  /\ Js.trim (d_rooms (extractDetails two_terms_markup two_terms_page))
     = d_rooms (extractDetails two_terms_markup two_terms_page).
Proof.
  assert (Hin : ("Antal rum"%string, d_rooms) ∈ term_fields).
  { apply list_elem_of_In. unfold term_fields. cbn [In].
    do 2 right. left. reflexivity. }
  split; [exact Hin|]. split; [vm_compute; reflexivity|].
  exact (extractDetails_trimmed two_terms_markup two_terms_page _ _ Hin).
Defined.

(** X23: a fetched page that contains one of the two removal notices
    makes getListingDetails throw the removed-listing error; no details
    are extracted from such a page. *)
Theorem getListingDetails_removed (url html : list N) w s t t' :
  Js.includes url (js "hemnet.se/bostad/") = true ->
  fetchPage url w s t = (Ok html, t') ->
  Js.includes html (js "Sidan hittades inte")
  || Js.includes html (js "Den här bostaden finns inte längre") = true ->
  getListingDetails url w s t = (Throw listing_removed, t').
Proof.
  intros Hu Hf Hr. unfold getListingDetails. rewrite Hu. cbn [negb].
  rewrite (bind_Ok _ _ _ _ _ _ _ Hf). unfold bind, world, ret.
  now rewrite Hr.
Qed.

Lemma getListingDetails_removed_witness :
  Js.includes (js "https://www.hemnet.se/bostad/villa-1") (js "hemnet.se/bostad/") = true
  /\ getListingDetails (js "https://www.hemnet.se/bostad/villa-1") removed_world
       sample_settings []
     = (Throw listing_removed,
        [POST (render_request sample_settings (js "https://www.hemnet.se/bostad/villa-1"))]).
Proof.
  split; [vm_compute; reflexivity|].
  apply (getListingDetails_removed (js "https://www.hemnet.se/bostad/villa-1")
           removed_page removed_world sample_settings []);
    vm_compute; reflexivity.
Defined.

Lemma description_in_spec (ps : list Dom.selected) :
  (description_in ps = []
   /\ forall el, el ∈ ps ->
        (length (Js.trim (Dom.textContent (fst el))) <= 200)%nat)
  \/ ((200 < length (description_in ps))%nat
      /\ exists el, el ∈ ps
           /\ description_in ps = Js.trim (Dom.textContent (fst el))).
Proof.
  induction ps as [|el ps IH]; cbn [description_in].
  - left. split; [reflexivity|]. intros el H. inversion H.
  - cbv zeta. destruct (200 <? length (Js.trim (Dom.textContent (fst el))))%nat eqn:E.
    + right. apply Nat.ltb_lt in E. split; [exact E|]. exists el. split; [left|reflexivity].
    + apply Nat.ltb_ge in E. destruct IH as [[I1 I2]|[I1 (x & Hx & I2)]].
      * left. split; [exact I1|]. intros y Hy.
        apply elem_of_cons in Hy as [->|Hy]; [exact E|now apply I2].
      * right. split; [exact I1|]. exists x. split; [now right|exact I2].
Qed.

(** X24: the description of the detail page is the trimmed text of a
    paragraph and is longer than 200 code units, or it is empty, and then
    no paragraph of the page has a trimmed text longer than 200. *)
Theorem description_of_long (doc : Dom.document) :
  (description_of doc = []
   /\ forall el, el ∈ Dom.select doc (Dom.Tag "p") ->
        (length (Js.trim (Dom.textContent (fst el))) <= 200)%nat)
  \/ ((200 < length (description_of doc))%nat
      /\ exists el, el ∈ Dom.select doc (Dom.Tag "p")
           /\ description_of doc = Js.trim (Dom.textContent (fst el))).
Proof. apply description_in_spec. Qed.


(** ** The images of the detail page *)

Lemma existsb_eqb_false (v : list N) (l : list (list N)) :
  existsb (Js.eqb v) l = false -> v ∉ l.
Proof.
  intros H Hin. apply list_elem_of_In in Hin.
  assert (E : existsb (Js.eqb v) l = true).
  { apply existsb_exists. exists v. split; [exact Hin|].
    unfold Js.eqb. now apply bool_decide_eq_true. }
  congruence.
Qed.

Lemma push_image_list (P : list N -> Prop) l src :
  image_list P l -> (forall v, src = Some v -> P v) ->
  image_list P (push_image l src).
Proof.
  intros (L & D & F) Hs. destruct src as [v|]; cbn [push_image];
    [|now repeat split].
  destruct (Js.truthy_string v); cbn [andb]; [|now repeat split].
  destruct (existsb (Js.eqb v) l) eqn:E; cbn [negb andb]; [now repeat split|].
  destruct (length l <? 10)%nat eqn:B; [|now repeat split].
  apply Nat.ltb_lt in B. split; [|split].
  - rewrite List.length_app. cbn [length]. lia.
  - apply NoDup_app. split; [exact D|]. split; [|apply NoDup_singleton].
    intros x Hx Hv. apply list_elem_of_singleton in Hv as ->.
    exact (existsb_eqb_false _ _ E Hx).
  - apply Forall_app. split; [exact F|]. apply Forall_singleton.
    now apply Hs.
Qed.

Lemma fold_push_image_list (P : list N -> Prop) (a : string)
  (els : list Dom.selected) l :
  image_list P l ->
  (forall el v, el ∈ els -> Dom.attr a (fst el) = Some v -> P v) ->
  image_list P (fold_left (fun acc el => push_image acc (Dom.attr a (fst el))) els l).
Proof.
  revert l. induction els as [|el els IH]; intros l I H; [exact I|].
  cbn [fold_left]. apply IH.
  - apply push_image_list; [exact I|]. intros v Hv. apply (H el); [left|exact Hv].
  - intros x v Hx. apply H. now right.
Qed.

Lemma attr_contains_inv tag a sub (n : Dom.node) :
  attr_contains tag a sub n = true ->
  exists v, Dom.attr a n = Some v /\ Js.includes v (js sub) = true.
Proof.
  unfold attr_contains. cbn [Dom.matches]. intros H.
  apply andb_true_iff in H as [_ H].
  destruct (Dom.attr a n) as [v|]; [|discriminate]. now exists v.
Qed.

Lemma select_where_elem p (doc : Dom.document) el :
  el ∈ select_where p doc -> p (fst el) = true.
Proof.
  unfold select_where. intros H. apply list_elem_of_In in H.
  now apply List.filter_In in H as [_ H].
Qed.

Lemma gallery_image_src (n : Dom.node) v :
  gallery_image n = true -> Dom.attr "src" n = Some v ->
  Js.includes v (js "hemnet") = true.
Proof.
  unfold gallery_image. intros H A.
  apply orb_true_iff in H as [H|H];
    apply attr_contains_inv in H as (v' & A' & I);
    rewrite A in A'; injection A' as <-.
  - change (js "bilder.hemnet.se") with (js "bilder." ++ js "hemnet" ++ js ".se") in I.
    apply includes_inv in I as (pre & post & ->).
    rewrite <- !app_assoc. rewrite (app_assoc pre). apply includes_app.
  - change (js "images.hemnet.se") with (js "images." ++ js "hemnet" ++ js ".se") in I.
    apply includes_inv in I as (pre & post & ->).
    rewrite <- !app_assoc. rewrite (app_assoc pre). apply includes_app.
Qed.

(** X25: the image list of the detail page holds at most ten addresses,
    holds none twice, and each of them contains the text hemnet. *)
Theorem imageUrls_of_bounded (doc : Dom.document) :
  (length (imageUrls_of doc) <= 10)%nat
  /\ NoDup (imageUrls_of doc)
  /\ Forall (fun v => Js.includes v (js "hemnet") = true) (imageUrls_of doc).
Proof.
  set (P := fun v : list N => Js.includes v (js "hemnet") = true).
  change (image_list P (imageUrls_of doc)).
  assert (I0 : image_list P []).
  { split; [cbn; lia|]. split; [apply NoDup_nil_2|apply Forall_nil_2]. }
  assert (I1 : image_list P
            (fold_left (fun acc el => push_image acc (Dom.attr "src" (fst el)))
                       (select_where gallery_image doc) [])).
  { apply fold_push_image_list; [exact I0|]. intros el v Hel A.
    exact (gallery_image_src _ _ (select_where_elem _ _ _ Hel) A). }
  unfold imageUrls_of. cbv zeta.
  destruct (length _ =? 0)%nat; [|exact I1].
  apply fold_push_image_list; [exact I1|]. intros el v Hel A.
  apply select_where_elem, attr_contains_inv in Hel as (v' & A' & I).
  rewrite A in A'. now injection A' as <-.
Qed.

(** ** The list of common locations *)

Lemma listed_locations_lookup :
  forallb (fun e => bool_decide
             (COMMON_LOCATIONS !! Js.trim (Js.toLowerCase (fst e)) = Some (snd e)))
          listed_locations = true.
Proof. vm_compute. reflexivity. Qed.

(** X26: every name that the tool list_hemnet_locations advertises is
    resolved by findLocationId from the static table, without a request,
    to the id advertised with it. *)
Theorem listed_locations_resolve (e : Js.jsstring * Js.jsstring) w s t :
  e ∈ listed_locations ->
  findLocationId (fst e) w s t
  = (Ok (Some {| id := Js.Str (snd e); name := fst e; type := js "kommun" |}), t).
Proof.
  intros H. apply findLocationId_static.
  apply list_elem_of_In in H.
  pose proof (proj1 (forallb_forall _ _) listed_locations_lookup e H) as L.
  now apply bool_decide_eq_true in L.
Qed.

Lemma listed_locations_resolve_witness :
  (js "Örebro", js "17757") ∈ listed_locations
  /\ findLocationId (js "Örebro") challenge_world sample_settings []
     = (Ok (Some {| id := Js.Str (js "17757"); name := js "Örebro";
                    type := js "kommun" |}), []).
Proof.
  assert (H : (js "Örebro", js "17757") ∈ listed_locations).
  { apply list_elem_of_In. vm_compute. do 30 right. left. reflexivity. }
  split; [exact H|].
  exact (listed_locations_resolve (js "Örebro", js "17757") challenge_world
           sample_settings [] H).
Defined.

(** ** The script that verifies the location ids *)


Lemma find_is_Some {A} (p : A -> bool) (l : list A) x :
  x ∈ l -> p x = true -> exists y, List.find p l = Some y.
Proof.
  intros H Hp. destruct (List.find p l) as [y|] eqn:E; [now exists y|].
  apply list_elem_of_In in H.
  pose proof (List.find_none _ _ E x H). congruence.
Qed.



